(** * The Kubernetes client of the reconciler

    A shallow embedding of [pkg/reconciler/kubernetes/internal/kubeclient.go].

    The client orchestrates calls to three collaborators that it does not
    implement: the discovery REST mapper, the cli-runtime resource helper and
    the dynamic client.  They are Go interfaces in the source and the fields
    of the class [Cluster] here; the methods of [KubeClient] are written once,
    for every implementation of that class.  Every transport call a method
    issues is appended to a log carried by the client, so that statements of
    the form "no create call was issued" are statements about that log. *)

From Stdlib Require Import String Ascii List Bool Arith Lia.
Import ListNotations.
Local Open Scope string_scope.
Local Open Scope list_scope.

Set Implicit Arguments.

(** ** Strings *)

(** [strings.ToLower] on the ASCII range, where the kinds of the API live:
    the letters A to Z are mapped to a to z, every other byte is kept.  No
    rune outside that range has a lower case among the letters of
    "namespace", so the comparison in which the client uses it agrees with
    Go's on every string. *)
Definition toLowerAscii (c : ascii) : ascii :=
  let n := nat_of_ascii c in
  if Nat.leb 65 n && Nat.leb n 90 then ascii_of_nat (n + 32) else c.

Fixpoint ToLower (s : string) : string :=
  match s with
  | EmptyString => EmptyString
  | String c s' => String (toLowerAscii c) (ToLower s')
  end.

(** ** Errors *)

(** [metav1.StatusReason]: the machine-readable part of an API error. *)
Inductive StatusReason :=
| StatusReasonUnknown
| StatusReasonNotFound
| StatusReasonAlreadyExists
| StatusReasonConflict
| StatusReasonForbidden
| StatusReasonInvalid
| StatusReasonInternalError.

Record error := { ErrReason : StatusReason; ErrMessage : string }.

(** [k8serrors.IsNotFound]. *)
Definition IsNotFound (err : error) : bool :=
  match ErrReason err with
  | StatusReasonNotFound => true
  | _ => false
  end.

(** A Go pair [(value, error)] of a call that yields a value or fails. *)
Inductive result (A : Type) :=
| Ok (a : A)
| Err (err : error).
Arguments Ok {A} a.
Arguments Err {A} err.

(** ** Type identities ([k8s.io/apimachinery/pkg/runtime/schema]) *)

Record GroupVersion := { gvGroup : string; gvVersion : string }.
Record GroupKind := { gkGroup : string; gkKind : string }.
Record GroupVersionKind :=
  { gvkGroup : string; gvkVersion : string; gvkKind : string }.
Record GroupVersionResource :=
  { gvrGroup : string; gvrVersion : string; gvrResource : string }.

Definition gvk_GroupKind (gvk : GroupVersionKind) : GroupKind :=
  {| gkGroup := gvkGroup gvk; gkKind := gvkKind gvk |}.
Definition gvk_GroupVersion (gvk : GroupVersionKind) : GroupVersion :=
  {| gvGroup := gvkGroup gvk; gvVersion := gvkVersion gvk |}.

Inductive RESTScopeName := RESTScopeNameNamespace | RESTScopeNameRoot.

(** [meta.RESTMapping]: what discovery knows about one type. *)
Record RESTMapping :=
  { mapResource : GroupVersionResource;
    mapGroupVersionKind : GroupVersionKind;
    mapScope : RESTScopeName }.

(** ** Manifests *)

(** [unstructured.Unstructured], seen through the accessors the client uses:
    the type identity parsed from apiVersion and kind, metadata.name,
    metadata.namespace, and the rest of the document. *)
Record Unstructured :=
  { objGroupVersionKind : GroupVersionKind;
    objName : string;
    objNamespace : string;
    objContent : string }.

Definition GetName (u : Unstructured) : string := objName u.
Definition GetNamespace (u : Unstructured) : string := objNamespace u.
Definition SetNamespace (u : Unstructured) (namespace : string)
  : Unstructured :=
  {| objGroupVersionKind := objGroupVersionKind u;
     objName := objName u;
     objNamespace := namespace;
     objContent := objContent u |}.

(** ** The result of a mutating operation *)

Record Metadata :=
  { Name : string;
    Namespace : string;
    Resource : string;
    Group : string;
    Version : string;
    Kind : string }.

(** [&Metadata{}] *)
Definition emptyMetadata : Metadata :=
  {| Name := ""; Namespace := ""; Resource := ""; Group := ""; Version := "";
     Kind := "" |}.

(** ** Connection configuration and resource helper *)

Record Config :=
  { Host : string;
    APIPath : string;
    cfgGroupVersion : option GroupVersion }.

(** A [rest.Interface] is identified by the configuration it was built from. *)
Record RESTClient := { clientConfig : Config }.

(** [resource.Helper]; [NamespaceScoped] is fixed by the mapping's scope. *)
Record Helper :=
  { helperClient : RESTClient;
    helperMapping : RESTMapping;
    NamespaceScoped : bool }.

Definition NewHelper (client : RESTClient) (mapping : RESTMapping) : Helper :=
  {| helperClient := client;
     helperMapping := mapping;
     NamespaceScoped :=
       match mapScope mapping with
       | RESTScopeNameNamespace => true
       | RESTScopeNameRoot => false
       end |}.

(** [resource.Info] *)
Record Info :=
  { infoClient : RESTClient;
    infoMapping : RESTMapping;
    infoNamespace : string;
    infoName : string;
    infoSource : string;
    infoResourceVersion : string;
    infoObject : option Unstructured }.

Inductive PatchType :=
| JSONPatchType
| MergePatchType
| StrategicMergePatchType
| ApplyPatchType.

Inductive DeletionPropagation :=
| DeletePropagationOrphan
| DeletePropagationBackground
| DeletePropagationForeground.

Record DeleteOptions :=
  { GracePeriodSeconds : option nat;
    PropagationPolicy : option DeletionPropagation }.

(** [metav1.DeleteOptions{}] *)
Definition noDeleteOptions : DeleteOptions :=
  {| GracePeriodSeconds := None; PropagationPolicy := None |}.

(** ** Transport calls *)

(** One constructor per transport call the client issues, with the arguments
    it passes.  The dynamic client is addressed either through
    [.Namespace(ns)] ([Some ns]) or directly ([None]). *)
Inductive Call :=
| CallGet (mapping : RESTMapping) (namespace name : string)
| CallCreate (mapping : RESTMapping) (namespace : string) (modify : bool)
             (obj : Unstructured)
| CallReplace (mapping : RESTMapping) (obj : Unstructured)
              (namespace name : string)
| CallDelete (resource : GroupVersionResource) (namespace : option string)
             (name : string) (opts : DeleteOptions)
| CallPatch (resource : GroupVersionResource) (namespace : option string)
            (name : string) (strategy : PatchType) (p : list Byte.byte)
| CallInfos (namespace : string).

Definition isCreate (c : Call) : bool :=
  match c with CallCreate _ _ _ _ => true | _ => false end.
Definition isReplace (c : Call) : bool :=
  match c with CallReplace _ _ _ _ => true | _ => false end.
Definition isDelete (c : Call) : bool :=
  match c with CallDelete _ _ _ _ => true | _ => false end.

(** ** The collaborators *)

(** The remote cluster with its discovery cache is a state of type [W]; each
    collaborator call is a transition of that state. *)
Class Cluster (W : Type) :=
  { (** [meta.RESTMapper] of the deferred discovery mapper *)
    mapper_KindFor :
      GroupVersionResource -> W -> result GroupVersionKind * W;
    mapper_RESTMapping :
      GroupKind -> string -> W -> result RESTMapping * W;
    (** [rest.RESTClientFor] *)
    RESTClientFor : Config -> result RESTClient;
    (** [resource.Helper.Get], as reached through [resource.Info.Get] *)
    helper_Get : Helper -> string -> string -> W -> result Unstructured * W;
    (** [resource.Helper.Create].  The manifest is given as the client
        holds it; what the helper itself writes to the object behind the
        pointer (it clears metadata.resourceVersion when [modify] is set) is
        not tracked, so the manifest of the model is the manifest as the
        client's own code leaves it. *)
    helper_Create :
      Helper -> string -> bool -> Unstructured -> W -> result Unstructured * W;
    (** Modelled from the spec: [newReplace] is defined in a file of the
        package other than kubeclient.go; the function it returns issues "an
        unconditional full replacement of the existing remote object's
        content with the manifest" and yields the replaced object or the
        transport error. *)
    replace_object :
      Helper -> Unstructured -> string -> string -> W ->
      result Unstructured * W;
    (** [resource.Info.Refresh] *)
    info_Refresh : Info -> Unstructured -> bool -> W -> option error * W;
    (** [dynamic.ResourceInterface.Delete] *)
    dynamic_Delete :
      GroupVersionResource -> option string -> string -> DeleteOptions ->
      W -> option error * W;
    (** [dynamic.ResourceInterface.Patch] *)
    dynamic_Patch :
      GroupVersionResource -> option string -> string -> PatchType ->
      list Byte.byte -> W -> result Unstructured * W;
    (** The resource builder of [DeleteNamespace] run to [Infos()]: every
        resource of every kind in the namespace, and the aggregate error.
        The getter receives the client's configuration as it stands; what
        the factory writes to it through the pointer is not tracked. *)
    builder_Infos : Config -> string -> W -> (list Info * option error) * W }.

(** ** The client *)

(** [KubeClient]: the configuration, the cluster behind [dynamicClient] and
    [mapper], and the log of the transport calls issued so far. *)
Record KubeClient (W : Type) :=
  { config : Config;
    cluster : W;
    calls : list Call }.

(** A method of [*KubeClient] returning [A]. *)
Definition M (W A : Type) : Type := KubeClient W -> A * KubeClient W.

Definition ret {W A : Type} (a : A) : M W A := fun kube => (a, kube).

Definition bind {W A B : Type} (m : M W A) (k : A -> M W B) : M W B :=
  fun kube => let (a, kube') := m kube in k a kube'.

Declare Scope kube_scope.
Delimit Scope kube_scope with kube.
Notation "x <- m ;; k" := (bind m (fun x => k))
  (at level 61, m at next level, right associativity) : kube_scope.
Notation "m ;;; k" := (bind m (fun _ => k))
  (at level 61, right associativity) : kube_scope.
Local Open Scope kube_scope.

Section Client.
Context {W : Type} `{Cluster W}.

(** A collaborator call that is not a transport call (discovery lookups,
    local refresh). *)
Definition lookup {A : Type} (op : W -> A * W) : M W A :=
  fun kube =>
    let (a, w) := op (cluster kube) in
    (a, {| config := config kube; cluster := w; calls := calls kube |}).

(** A transport call: run it and log it. *)
Definition transport {A : Type} (c : Call) (op : W -> A * W) : M W A :=
  fun kube =>
    let (a, w) := op (cluster kube) in
    (a, {| config := config kube; cluster := w;
           calls := calls kube ++ [c] |}).

Definition getConfig : M W Config := fun kube => (config kube, kube).

(** [kube.config.GroupVersion = &gv] *)
Definition setConfigGroupVersion (gv : GroupVersion) : M W unit :=
  fun kube =>
    (tt, {| config := {| Host := Host (config kube);
                         APIPath := APIPath (config kube);
                         cfgGroupVersion := Some gv |};
            cluster := cluster kube;
            calls := calls kube |}).

(** The configuration is received by value: the client's own is not
    changed.  The content configuration, a constant, is left out. *)
Definition newRestClient (restConfig : Config) (gv : GroupVersion)
  : result RESTClient :=
  let apiPath :=
    if Nat.eqb (String.length (gvGroup gv)) 0 then "/api" else "/apis" in
  RESTClientFor {| Host := Host restConfig;
                   APIPath := apiPath;
                   cfgGroupVersion := Some gv |}.

Definition setDefaultNamespaceIfScopedAndNoneSet
    (namespace : string) (u : Unstructured) (helper : Helper)
  : Unstructured :=
  if NamespaceScoped helper then
    let resNamespace := GetNamespace u in
    if (resNamespace =? "")%string then
      let namespace :=
        if (namespace =? "")%string then "default" else namespace in
      SetNamespace u namespace
    else u
  else u.

Definition setNamespaceIfScoped
    (namespace : string) (u : Unstructured) (helper : Helper)
  : Unstructured :=
  if (GetNamespace u =? "")%string && NamespaceScoped helper then
    SetNamespace u namespace
  else u.

(** The manifest after the two setters, in the order in which
    [ApplyWithNamespaceOverride] calls them. *)
Definition settleNamespace
    (namespaceOverride : string) (u : Unstructured) (helper : Helper)
  : Unstructured :=
  setNamespaceIfScoped namespaceOverride
    (setDefaultNamespaceIfScopedAndNoneSet namespaceOverride u helper)
    helper.

(** [i.Object = obj] *)
Definition Info_withObject (info : Info) (obj : Unstructured) : Info :=
  {| infoClient := infoClient info;
     infoMapping := infoMapping info;
     infoNamespace := infoNamespace info;
     infoName := infoName info;
     infoSource := infoSource info;
     infoResourceVersion := infoResourceVersion info;
     infoObject := Some obj |}.

(** [info.Get()]: on success the fetched object is stored in the info. *)
Definition Info_Get (info : Info) : M W (Info * option error) :=
  r <- transport
         (CallGet (infoMapping info) (infoNamespace info) (infoName info))
         (helper_Get (NewHelper (infoClient info) (infoMapping info))
                     (infoNamespace info) (infoName info)) ;;
  match r with
  | Err err => ret (info, Some err)
  | Ok obj => ret (Info_withObject info obj, None)
  end.

(** The [resource.Info] literal that [ApplyWithNamespaceOverride] builds
    for the manifest once its namespace is settled. *)
Definition newInfo (restClient : RESTClient) (restMapping : RESTMapping)
    (u : Unstructured) : Info :=
  {| infoClient := restClient;
     infoMapping := restMapping;
     infoNamespace := GetNamespace u;
     infoName := GetName u;
     infoSource := "";
     infoResourceVersion := gvrVersion (mapResource restMapping);
     infoObject := None |}.

(** The manifest is passed by pointer and its namespace is set in place:
    the manifest as the method leaves it is returned first, then the Go
    results, a [Metadata] pointer and an error. *)
Definition ApplyWithNamespaceOverride
    (u : Unstructured) (namespaceOverride : string)
  : M W (Unstructured * Metadata * option error) :=
  let metadata := emptyMetadata in
  let gvk := objGroupVersionKind u in
  r <- lookup (mapper_RESTMapping (gvk_GroupKind gvk) (gvkVersion gvk)) ;;
  match r with
  | Err err => ret (u, metadata, Some err)
  | Ok restMapping =>
      let gv := gvk_GroupVersion gvk in
      setConfigGroupVersion gv ;;;
      cfg <- getConfig ;;
      match newRestClient cfg gv with
      | Err err => ret (u, metadata, Some err)
      | Ok restClient =>
          let helper := NewHelper restClient restMapping in
          let u := setDefaultNamespaceIfScopedAndNoneSet
                     namespaceOverride u helper in
          let u := setNamespaceIfScoped namespaceOverride u helper in
          let info := newInfo restClient restMapping u in
          g <- Info_Get info ;;
          let (info, gerr) := g in
          match gerr with
          | Some err =>
              if negb (IsNotFound err) then ret (u, metadata, Some err)
              else
                c <- transport
                       (CallCreate restMapping (GetNamespace u) true u)
                       (helper_Create helper (GetNamespace u) true u) ;;
                match c with
                | Err err => ret (u, metadata, Some err)
                | Ok _ =>
                    ret (u,
                         {| Name := GetName u;
                            Namespace := GetNamespace u;
                            Resource := Resource metadata;
                            Group := Group metadata;
                            Version := Version metadata;
                            Kind := gvkKind (objGroupVersionKind u) |},
                         None)
                end
          | None =>
              rp <- transport
                      (CallReplace restMapping u (GetNamespace u) (GetName u))
                      (replace_object helper u (GetNamespace u) (GetName u)) ;;
              match rp with
              | Err err => ret (u, metadata, Some err)
              | Ok replacedObject =>
                  lookup (info_Refresh info replacedObject true) ;;;
                  ret (u,
                       {| Name := GetName u;
                          Namespace := GetNamespace u;
                          Resource := Resource metadata;
                          Group := Group metadata;
                          Version := Version metadata;
                          Kind := gvkKind gvk |},
                       None)
              end
          end
      end
  end.

Definition Apply (u : Unstructured)
  : M W (Unstructured * Metadata * option error) :=
  ApplyWithNamespaceOverride u "".

Definition DeleteResourceByKindAndNameAndNamespace
    (kind name namespace : string) (opts : DeleteOptions)
  : M W (option Metadata * option error) :=
  r <- lookup (mapper_KindFor
                 {| gvrGroup := ""; gvrVersion := ""; gvrResource := kind |}) ;;
  match r with
  | Err err => ret (None, Some err)
  | Ok gvk =>
      let isNamespaceResource :=
        (ToLower (gvkKind gvk) =? "namespace")%string in
      let namespace :=
        if negb isNamespaceResource && (namespace =? "")%string
        then "default" else namespace in
      r <- lookup (mapper_RESTMapping (gvk_GroupKind gvk) (gvkVersion gvk)) ;;
      match r with
      | Err err => ret (None, Some err)
      | Ok restMapping =>
          cfg <- getConfig ;;
          match newRestClient cfg (gvk_GroupVersion gvk) with
          | Err err => ret (None, Some err)
          | Ok restClient =>
              let helper := NewHelper restClient restMapping in
              err <- (if NamespaceScoped helper then
                        transport
                          (CallDelete (mapResource restMapping)
                                      (Some namespace) name opts)
                          (dynamic_Delete (mapResource restMapping)
                                          (Some namespace) name opts)
                      else
                        transport
                          (CallDelete (mapResource restMapping) None name opts)
                          (dynamic_Delete (mapResource restMapping)
                                          None name opts)) ;;
              let namespace :=
                if isNamespaceResource then "" else namespace in
              ret (Some {| Name := name;
                           Namespace := namespace;
                           Resource := "";
                           Group := "";
                           Version := "";
                           Kind := kind |},
                   err)
          end
      end
  end.

(** Go results: the metadata, the patched object (nil on failure) and the
    error. *)
Definition PatchUsingStrategy
    (kind name namespace : string) (p : list Byte.byte)
    (strategy : PatchType)
  : M W (Metadata * option Unstructured * option error) :=
  let metadata := emptyMetadata in
  r <- lookup (mapper_KindFor
                 {| gvrGroup := ""; gvrVersion := ""; gvrResource := kind |}) ;;
  match r with
  | Err err => ret (metadata, None, Some err)
  | Ok gvk =>
      r <- lookup (mapper_RESTMapping (gvk_GroupKind gvk) (gvkVersion gvk)) ;;
      match r with
      | Err err => ret (metadata, None, Some err)
      | Ok restMapping =>
          cfg <- getConfig ;;
          match newRestClient cfg (gvk_GroupVersion gvk) with
          | Err err => ret (metadata, None, Some err)
          | Ok restClient =>
              let helper := NewHelper restClient restMapping in
              r <- (if NamespaceScoped helper then
                      transport
                        (CallPatch (mapResource restMapping)
                                   (Some namespace) name strategy p)
                        (dynamic_Patch (mapResource restMapping)
                                       (Some namespace) name strategy p)
                    else
                      transport
                        (CallPatch (mapResource restMapping)
                                   None name strategy p)
                        (dynamic_Patch (mapResource restMapping)
                                       None name strategy p)) ;;
              match r with
              | Err err => ret (metadata, None, Some err)
              | Ok u =>
                  let gvr := mapResource restMapping in
                  ret ({| Name := GetName u;
                          Namespace := GetNamespace u;
                          Resource := gvrResource gvr;
                          Group := gvrGroup gvr;
                          Version := gvrVersion gvr;
                          Kind := gvkKind gvk |},
                       Some u, None)
              end
          end
      end
  end.

Definition Patch (kind name namespace : string) (p : list Byte.byte)
  : M W (Metadata * option Unstructured * option error) :=
  PatchUsingStrategy kind name namespace p StrategicMergePatchType.

Definition DeleteNamespace (namespace : string) : M W (option error) :=
  cfg <- getConfig ;;
  r <- transport (CallInfos namespace) (builder_Infos cfg namespace) ;;
  let (infos, err) := r in
  match err with
  | Some err => ret (Some err)
  | None =>
      if Nat.eqb (length infos) 0 then
        let namespaceRes :=
          {| gvrGroup := ""; gvrVersion := "v1";
             gvrResource := "namespaces" |} in
        transport (CallDelete namespaceRes None namespace noDeleteOptions)
                  (dynamic_Delete namespaceRes None namespace noDeleteOptions)
      else ret None
  end.

End Client.

(** The transport calls issued between two states of the client. *)
Definition issued {W : Type} (before after : KubeClient W) : list Call :=
  skipn (length (calls before)) (calls after).

(** ** An in-memory cluster

    A small implementation of [Cluster], in the manner of the fake clients of
    client-go: a fixed discovery table, a store of objects keyed by resource,
    namespace and name, and switches that make a collaborator fail.  It is the
    cluster on which the general statements below are run on concrete
    inputs. *)
Module InMemory.

Record APIResource :=
  { names : list string;          (* singular, plural and short names *)
    mapping : RESTMapping }.

Definition apiResource (group version kind plural : string)
    (scope : RESTScopeName) (aliases : list string) : APIResource :=
  {| names := plural :: aliases;
     mapping :=
       {| mapResource :=
            {| gvrGroup := group; gvrVersion := version;
               gvrResource := plural |};
          mapGroupVersionKind :=
            {| gvkGroup := group; gvkVersion := version; gvkKind := kind |};
          mapScope := scope |} |}.

Definition pods : APIResource :=
  apiResource "" "v1" "Pod" "pods" RESTScopeNameNamespace ["pod"; "po"].
Definition configmaps : APIResource :=
  apiResource "" "v1" "ConfigMap" "configmaps" RESTScopeNameNamespace
              ["configmap"; "cm"].
Definition namespaces : APIResource :=
  apiResource "" "v1" "Namespace" "namespaces" RESTScopeNameRoot
              ["namespace"; "ns"].
Definition deployments : APIResource :=
  apiResource "apps" "v1" "Deployment" "deployments" RESTScopeNameNamespace
              ["deployment"; "deploy"].
Definition clusterroles : APIResource :=
  apiResource "rbac.authorization.k8s.io" "v1" "ClusterRole" "clusterroles"
              RESTScopeNameRoot ["clusterrole"].

Definition discovery : list APIResource :=
  [pods; configmaps; namespaces; deployments; clusterroles].

Record Stored :=
  { atResource : GroupVersionResource;
    atNamespace : string;
    atName : string;
    stored : Unstructured }.

Record State :=
  { objects : list Stored;
    failGet : option error;
    failRefresh : option error;
    failInfos : option error }.

Definition gvr_eqb (a b : GroupVersionResource) : bool :=
  (gvrGroup a =? gvrGroup b)%string && (gvrVersion a =? gvrVersion b)%string
  && (gvrResource a =? gvrResource b)%string.

Definition at_key (r : GroupVersionResource) (namespace name : string)
    (o : Stored) : bool :=
  gvr_eqb (atResource o) r && (atNamespace o =? namespace)%string
  && (atName o =? name)%string.

Definition with_objects (w : State) (os : list Stored) : State :=
  {| objects := os; failGet := failGet w; failRefresh := failRefresh w;
     failInfos := failInfos w |}.

Definition notFound (name : string) : error :=
  {| ErrReason := StatusReasonNotFound; ErrMessage := name ++ " not found" |}.

Definition noMatch (what : string) : error :=
  {| ErrReason := StatusReasonUnknown;
     ErrMessage := "no matches for " ++ what |}.

(** [resource.Helper] drops the namespace of a type that is not scoped. *)
Definition NamespaceIfScoped (namespace : string) (scoped : bool) : string :=
  if scoped then namespace else "".

Definition namespaceOf (namespace : option string) : string :=
  match namespace with Some ns => ns | None => "" end.

Definition KindFor (r : GroupVersionResource) (w : State)
  : result GroupVersionKind * State :=
  match find (fun a => existsb (String.eqb (ToLower (gvrResource r))) (names a))
             discovery with
  | Some a => (Ok (mapGroupVersionKind (mapping a)), w)
  | None => (Err (noMatch (gvrResource r)), w)
  end.

Definition RESTMappingFor (gk : GroupKind) (version : string) (w : State)
  : result RESTMapping * State :=
  match find (fun a =>
                let k := mapGroupVersionKind (mapping a) in
                (gvkGroup k =? gkGroup gk)%string
                && (gvkKind k =? gkKind gk)%string
                && ((version =? "")%string || (gvkVersion k =? version)%string))
             discovery with
  | Some a => (Ok (mapping a), w)
  | None => (Err (noMatch (gkKind gk)), w)
  end.

Definition Get (h : Helper) (namespace name : string) (w : State)
  : result Unstructured * State :=
  match failGet w with
  | Some err => (Err err, w)
  | None =>
      match find (at_key (mapResource (helperMapping h))
                         (NamespaceIfScoped namespace (NamespaceScoped h)) name)
                 (objects w) with
      | Some o => (Ok (stored o), w)
      | None => (Err (notFound name), w)
      end
  end.

Definition Create (h : Helper) (namespace : string) (modify : bool)
    (obj : Unstructured) (w : State) : result Unstructured * State :=
  let r := mapResource (helperMapping h) in
  let ns := NamespaceIfScoped namespace (NamespaceScoped h) in
  if existsb (at_key r ns (GetName obj)) (objects w) then
    (Err {| ErrReason := StatusReasonAlreadyExists;
            ErrMessage := GetName obj ++ " already exists" |}, w)
  else
    (Ok obj,
     with_objects w
       ({| atResource := r; atNamespace := ns; atName := GetName obj;
           stored := obj |} :: objects w)).

Definition Replace (h : Helper) (obj : Unstructured)
    (namespace name : string) (w : State) : result Unstructured * State :=
  let r := mapResource (helperMapping h) in
  let ns := NamespaceIfScoped namespace (NamespaceScoped h) in
  if existsb (at_key r ns name) (objects w) then
    (Ok obj,
     with_objects w
       (map (fun o => if at_key r ns name o then
                        {| atResource := r; atNamespace := ns;
                           atName := name; stored := obj |}
                      else o) (objects w)))
  else (Err (notFound name), w).

Definition Refresh (info : Info) (obj : Unstructured) (ignoreError : bool)
    (w : State) : option error * State :=
  (failRefresh w, w).

Definition Delete (r : GroupVersionResource) (namespace : option string)
    (name : string) (opts : DeleteOptions) (w : State)
  : option error * State :=
  if existsb (at_key r (namespaceOf namespace) name) (objects w) then
    (None,
     with_objects w
       (filter (fun o => negb (at_key r (namespaceOf namespace) name o))
               (objects w)))
  else (Some (notFound name), w).

Definition PatchObject (r : GroupVersionResource) (namespace : option string)
    (name : string) (strategy : PatchType) (p : list Byte.byte) (w : State)
  : result Unstructured * State :=
  match find (at_key r (namespaceOf namespace) name) (objects w) with
  | Some o => (Ok (stored o), w)
  | None => (Err (notFound name), w)
  end.

Definition Infos (cfg : Config) (namespace : string) (w : State)
  : (list Info * option error) * State :=
  match failInfos w with
  | Some err => (([], Some err), w)
  | None =>
      ((map (fun o =>
               {| infoClient := {| clientConfig := cfg |};
                  infoMapping :=
                    {| mapResource := atResource o;
                       mapGroupVersionKind := objGroupVersionKind (stored o);
                       mapScope := RESTScopeNameNamespace |};
                  infoNamespace := atNamespace o;
                  infoName := atName o;
                  infoSource := "";
                  infoResourceVersion := "";
                  infoObject := Some (stored o) |})
            (filter (fun o => (atNamespace o =? namespace)%string)
                    (objects w)),
        None), w)
  end.

#[export] Instance inMemoryCluster : Cluster State :=
  {| mapper_KindFor := KindFor;
     mapper_RESTMapping := RESTMappingFor;
     RESTClientFor := fun cfg => Ok {| clientConfig := cfg |};
     helper_Get := Get;
     helper_Create := Create;
     replace_object := Replace;
     info_Refresh := Refresh;
     dynamic_Delete := Delete;
     dynamic_Patch := PatchObject;
     builder_Infos := Infos |}.

Definition emptyCluster : State :=
  {| objects := []; failGet := None; failRefresh := None;
     failInfos := None |}.

Definition client (w : State) : KubeClient State :=
  {| config := {| Host := "https://cluster.local"; APIPath := "";
                  cfgGroupVersion := None |};
     cluster := w;
     calls := [] |}.

Definition manifest (group version kind name namespace : string)
  : Unstructured :=
  {| objGroupVersionKind :=
       {| gvkGroup := group; gvkVersion := version; gvkKind := kind |};
     objName := name;
     objNamespace := namespace;
     objContent := "" |}.

(** The cluster after the manifests were applied in order to a cluster
    that starts out empty. *)
Definition clusterWith (us : list Unstructured) : State :=
  fold_left (fun w u => cluster (snd (Apply u (client w)))) us emptyCluster.

(** The REST client that [newRestClient] builds for a group version from
    the configuration of [client]. *)
Definition restClientFor (group version : string) : RESTClient :=
  {| clientConfig :=
       {| Host := "https://cluster.local";
          APIPath := if (group =? "")%string then "/api" else "/apis";
          cfgGroupVersion :=
            Some {| gvGroup := group; gvVersion := version |} |} |}.

(** Manifests, errors and clusters of the scenarios. *)
Definition configMap : Unstructured :=
  manifest "" "v1" "ConfigMap" "cm1" "".
Definition clusterRole : Unstructured :=
  manifest "rbac.authorization.k8s.io" "v1" "ClusterRole" "cr1" "foo".
Definition deployment : Unstructured :=
  manifest "apps" "v1" "Deployment" "web" "prod".
Definition pod : Unstructured :=
  manifest "" "v1" "Pod" "p1" "ns1".
Definition team : Unstructured :=
  manifest "" "v1" "Namespace" "team-a" "".

Definition unavailable : error :=
  {| ErrReason := StatusReasonInternalError;
     ErrMessage := "etcdserver: request timed out" |}.

Definition failingGet (w : State) : State :=
  {| objects := objects w; failGet := Some unavailable;
     failRefresh := failRefresh w; failInfos := failInfos w |}.
Definition failingRefresh (w : State) : State :=
  {| objects := objects w; failGet := failGet w;
     failRefresh := Some unavailable; failInfos := failInfos w |}.
Definition failingInfos (w : State) : State :=
  {| objects := objects w; failGet := failGet w;
     failRefresh := failRefresh w; failInfos := Some unavailable |}.

End InMemory.

(** ** Reading from the cluster

    [Get] and [ListResource] read through the dynamic client and, for the
    listing, through the resource lookup of the mapper.  A read sends nothing
    that changes the cluster; it is not an entry of [calls], the log of what
    Apply, Patch and the deletes send. *)
Module Reads.

(** [metav1.ListOptions]: selectors and paging, handed on as they are. *)
Record ListOptions :=
  { LabelSelector : string;
    FieldSelector : string;
    Limit : nat;
    Continue : string }.

(** [unstructured.UnstructuredList] *)
Record UnstructuredList :=
  { Items : list Unstructured;
    RemainingContinue : string }.

Class Reader (W : Type) :=
  { (** [meta.RESTMapper.ResourceFor] *)
    mapper_ResourceFor :
      GroupVersionResource -> W -> result GroupVersionResource * W;
    (** [dynamic.ResourceInterface.Get], with [metav1.GetOptions{}] *)
    dynamic_Get :
      GroupVersionResource -> option string -> string -> W ->
      result Unstructured * W;
    (** [dynamic.ResourceInterface.List] *)
    dynamic_List :
      GroupVersionResource -> ListOptions -> W -> result UnstructuredList * W }.

(** The Go pair of a dynamic client call: the value and a nil error, or nil
    and the error. *)
Definition returned {A : Type} (r : result A) : option A * option error :=
  match r with
  | Ok a => (Some a, None)
  | Err err => (None, Some err)
  end.

Section Methods.
Context {W : Type} {C : Cluster W} {R : Reader W}.

Definition Get (kind name namespace : string)
  : M W (option Unstructured * option error) :=
  r <- lookup (mapper_KindFor
                 {| gvrGroup := ""; gvrVersion := ""; gvrResource := kind |}) ;;
  match r with
  | Err err => ret (None, Some err)
  | Ok gvk =>
      r <- lookup (mapper_RESTMapping (gvk_GroupKind gvk) (gvkVersion gvk)) ;;
      match r with
      | Err err => ret (None, Some err)
      | Ok restMapping =>
          cfg <- getConfig ;;
          match newRestClient cfg (gvk_GroupVersion gvk) with
          | Err err => ret (None, Some err)
          | Ok restClient =>
              let helper := NewHelper restClient restMapping in
              r <- (if NamespaceScoped helper then
                      lookup (dynamic_Get (mapResource restMapping)
                                          (Some namespace) name)
                    else
                      lookup (dynamic_Get (mapResource restMapping)
                                          None name)) ;;
              ret (returned r)
          end
      end
  end.

Definition ListResource (resource : string) (lo : ListOptions)
  : M W (option UnstructuredList * option error) :=
  r <- lookup (mapper_ResourceFor
                 {| gvrGroup := ""; gvrVersion := "";
                    gvrResource := resource |}) ;;
  match r with
  | Err err => ret (None, Some err)
  | Ok gvr =>
      r <- lookup (dynamic_List gvr lo) ;;
      ret (returned r)
  end.

End Methods.
End Reads.

(** The reads of the in-memory cluster. *)
Module InMemoryReads.

Definition ResourceFor (r : GroupVersionResource) (w : InMemory.State)
  : result GroupVersionResource * InMemory.State :=
  match find (fun a => existsb (String.eqb (ToLower (gvrResource r)))
                               (InMemory.names a))
             InMemory.discovery with
  | Some a => (Ok (mapResource (InMemory.mapping a)), w)
  | None => (Err (InMemory.noMatch (gvrResource r)), w)
  end.

Definition GetObject (r : GroupVersionResource) (namespace : option string)
    (name : string) (w : InMemory.State)
  : result Unstructured * InMemory.State :=
  match find (InMemory.at_key r (InMemory.namespaceOf namespace) name)
             (InMemory.objects w) with
  | Some o => (Ok (InMemory.stored o), w)
  | None => (Err (InMemory.notFound name), w)
  end.

Definition ListObjects (r : GroupVersionResource) (lo : Reads.ListOptions)
    (w : InMemory.State)
  : result Reads.UnstructuredList * InMemory.State :=
  match InMemory.failInfos w with
  | Some err => (Err err, w)
  | None =>
      (Ok {| Reads.Items :=
               map InMemory.stored
                   (filter (fun o => InMemory.gvr_eqb (InMemory.atResource o) r)
                           (InMemory.objects w));
             Reads.RemainingContinue := "" |}, w)
  end.

#[export] Instance inMemoryReader : Reads.Reader InMemory.State :=
  {| Reads.mapper_ResourceFor := ResourceFor;
     Reads.dynamic_Get := GetObject;
     Reads.dynamic_List := ListObjects |}.

Definition everything : Reads.ListOptions :=
  {| Reads.LabelSelector := ""; Reads.FieldSelector := ""; Reads.Limit := 0;
     Reads.Continue := "" |}.

End InMemoryReads.

(** The in-memory cluster behind a connection that refuses a configuration
    without a host. *)
Module Strict.

Definition noHost : error :=
  {| ErrReason := StatusReasonUnknown;
     ErrMessage := "host must be a URL or a host:port pair" |}.

Definition strictCluster : Cluster InMemory.State :=
  {| mapper_KindFor := InMemory.KindFor;
     mapper_RESTMapping := InMemory.RESTMappingFor;
     RESTClientFor :=
       fun cfg => if (Host cfg =? "")%string then Err noHost
                  else Ok {| clientConfig := cfg |};
     helper_Get := InMemory.Get;
     helper_Create := InMemory.Create;
     replace_object := InMemory.Replace;
     info_Refresh := InMemory.Refresh;
     dynamic_Delete := InMemory.Delete;
     dynamic_Patch := InMemory.PatchObject;
     builder_Infos := InMemory.Infos |}.

Definition hostless (w : InMemory.State) : KubeClient InMemory.State :=
  {| config := {| Host := ""; APIPath := ""; cfgGroupVersion := None |};
     cluster := w;
     calls := [] |}.

Definition conflict : error :=
  {| ErrReason := StatusReasonConflict;
     ErrMessage := "the object has been modified" |}.

(** The in-memory cluster with a replace that always meets a conflict. *)
Definition contendedCluster : Cluster InMemory.State :=
  {| mapper_KindFor := InMemory.KindFor;
     mapper_RESTMapping := InMemory.RESTMappingFor;
     RESTClientFor := fun cfg => Ok {| clientConfig := cfg |};
     helper_Get := InMemory.Get;
     helper_Create := InMemory.Create;
     replace_object := fun _ _ _ _ w => (Err conflict, w);
     info_Refresh := InMemory.Refresh;
     dynamic_Delete := InMemory.Delete;
     dynamic_Patch := InMemory.PatchObject;
     builder_Infos := InMemory.Infos |}.

(** A cluster whose get reports not-found for an object it holds, as when
    the object is created by another party after the get. *)
Definition raced (w : InMemory.State) (name : string) : InMemory.State :=
  {| InMemory.objects := InMemory.objects w;
     InMemory.failGet := Some (InMemory.notFound name);
     InMemory.failRefresh := InMemory.failRefresh w;
     InMemory.failInfos := InMemory.failInfos w |}.

End Strict.


Import InMemory.

(** * Properties of the client *)

Lemma skipn_length_app (A : Type) (l l' : list A) :
  skipn (length l) (l ++ l') = l'.
Proof.
  induction l as [|a l IH]; [reflexivity | exact IH].
Qed.

Lemma eqb_empty_false (s : string) : s <> "" -> (s =? "")%string = false.
Proof.
  intro Hs. apply String.eqb_neq. exact Hs.
Qed.

(** Unfolds the plumbing of the methods, leaving the collaborator calls. *)
Ltac run_client :=
  unfold Info_Get;
  unfold bind, lookup, transport, ret, getConfig, setConfigGroupVersion;
  cbn [config cluster calls fst snd].

(** Case analysis on the next collaborator result the goal inspects. *)
Ltac innermost x :=
  lazymatch x with
  | context [match _ with _ => _ end] => fail
  | _ => idtac
  end.

Ltac next_result :=
  match goal with
  | |- context [match ?x with _ => _ end] =>
      innermost x; destruct x eqn:?; cbn [config cluster calls]
  | H : context [match ?x with _ => _ end] |- _ =>
      innermost x; destruct x eqn:?; cbn [config cluster calls] in H
  end.

Section Namespaces.
Context {W : Type} `{Cluster W}.

(** The two namespace setters leave the manifest of a cluster-scoped type
    as it is. *)
Lemma setters_cluster_scoped (namespace : string) (u : Unstructured)
    (helper : Helper) :
  NamespaceScoped helper = false ->
  settleNamespace namespace u helper = u.
Proof.
  intro Hs.
  unfold settleNamespace, setDefaultNamespaceIfScopedAndNoneSet,
    setNamespaceIfScoped.
  rewrite Hs, andb_false_r. reflexivity.
Qed.

(** On a namespace-scoped type the second setter never fires: the first
    one has already left a namespace on the manifest that is not empty,
    unless the manifest had one. *)
Lemma setters_namespace_scoped (namespace : string) (u : Unstructured)
    (helper : Helper) :
  NamespaceScoped helper = true ->
  settleNamespace namespace u helper
  = if (GetNamespace u =? "")%string
    then SetNamespace u (if (namespace =? "")%string then "default"
                         else namespace)
    else u.
Proof.
  intro Hs.
  unfold settleNamespace, setDefaultNamespaceIfScopedAndNoneSet,
    setNamespaceIfScoped.
  rewrite Hs, andb_true_r.
  destruct (GetNamespace u =? "")%string eqn:Hu.
  - destruct (namespace =? "")%string eqn:Hn; cbn.
    + reflexivity.
    + rewrite Hn. reflexivity.
  - rewrite Hu. reflexivity.
Qed.

Lemma NewHelper_scoped (restClient : RESTClient) (restMapping : RESTMapping) :
  NamespaceScoped (NewHelper restClient restMapping)
  = match mapScope restMapping with
    | RESTScopeNameNamespace => true
    | RESTScopeNameRoot => false
    end.
Proof. reflexivity. Qed.

(** C1 (as amended): for a manifest whose resolved type is cluster-scoped,
    Apply leaves the manifest, and with it its namespace field, exactly as
    the caller passed it, for every override; when Apply succeeds the
    result's Namespace is the manifest's declared namespace.  The effective
    namespace is therefore empty exactly when the manifest declares
    none. *)
Theorem apply_cluster_scoped_keeps_namespace
    (kube kube' : KubeClient W) (u u' : Unstructured)
    (namespaceOverride : string) (restMapping : RESTMapping) (w : W)
    (metadata : Metadata) (err : option error) :
  mapper_RESTMapping (gvk_GroupKind (objGroupVersionKind u))
    (gvkVersion (objGroupVersionKind u)) (cluster kube)
  = (Ok restMapping, w) ->
  mapScope restMapping = RESTScopeNameRoot ->
  ApplyWithNamespaceOverride u namespaceOverride kube
  = (u', metadata, err, kube') ->
  u' = u /\
  (err = None -> Namespace metadata = GetNamespace u) /\
  (GetNamespace u' = "" <-> GetNamespace u = "").
Proof.
  intros Hmap Hscope Happly.
  unfold ApplyWithNamespaceOverride in Happly. run_client.
  revert Happly. run_client. rewrite Hmap. cbn [cluster config].
  destruct (newRestClient _ _) as [restClient|e]; cbn.
  2:{ intro E; inversion E; subst. repeat split; try discriminate; auto. }
  match goal with
  | |- context [setNamespaceIfScoped ?o (_ ?o ?v ?h) ?h] =>
      change (setNamespaceIfScoped o
                (setDefaultNamespaceIfScopedAndNoneSet o v h) h)
        with (settleNamespace o v h)
  end.
  rewrite setters_cluster_scoped
    by (rewrite NewHelper_scoped, Hscope; reflexivity).
  intro Happly.
  repeat next_result; inversion Happly; subst;
    repeat split; try discriminate; auto.
Qed.

End Namespaces.

Section ApplyEngine.
Context {W : Type} `{Cluster W}.

(** [newRestClient] takes the configuration by value and overwrites the
    API path and the group version: only the host reaches the client. *)
Lemma newRestClient_config (host path : string) (g : option GroupVersion)
    (cfg : Config) (gv : GroupVersion) :
  host = Host cfg ->
  newRestClient {| Host := host; APIPath := path; cfgGroupVersion := g |} gv
  = newRestClient cfg gv.
Proof. intros ->. reflexivity. Qed.

Variables (kube : KubeClient W) (u : Unstructured)
          (namespaceOverride : string).
Variables (restMapping : RESTMapping) (w1 : W) (restClient : RESTClient).

Let gvk := objGroupVersionKind u.
Let helper := NewHelper restClient restMapping.
Let applied := settleNamespace namespaceOverride u helper.

Hypothesis resolved :
  mapper_RESTMapping (gvk_GroupKind gvk) (gvkVersion gvk) (cluster kube)
  = (Ok restMapping, w1).
Hypothesis connected :
  newRestClient (config kube) (gvk_GroupVersion gvk) = Ok restClient.

(** C2: for a manifest whose resolved type is namespace-scoped, the
    namespace Apply leaves on the manifest is "default" when the manifest
    declares none and the override is empty, the override when the manifest
    declares none and the override is not empty, and the manifest's own
    namespace, the manifest being untouched, whenever it declares one. *)
Theorem apply_namespace_scoped_namespace
    (kube' : KubeClient W) (u' : Unstructured) (metadata : Metadata)
    (err : option error) :
  mapScope restMapping = RESTScopeNameNamespace ->
  ApplyWithNamespaceOverride u namespaceOverride kube
  = (u', metadata, err, kube') ->
  (GetNamespace u = "" -> namespaceOverride = "" ->
   GetNamespace u' = "default") /\
  (GetNamespace u = "" -> namespaceOverride <> "" ->
   GetNamespace u' = namespaceOverride) /\
  (GetNamespace u <> "" -> u' = u) /\
  u' = SetNamespace u (GetNamespace u') /\
  (err = None -> Namespace metadata = GetNamespace u').
Proof.
  intros Hscope Happly.
  assert (Hu' : u' = applied
                /\ (err = None -> Namespace metadata = GetNamespace u')).
  { revert Happly. unfold ApplyWithNamespaceOverride. run_client.
    fold gvk. rewrite resolved. cbn [cluster config].
    rewrite newRestClient_config with (cfg := config kube) by reflexivity.
    rewrite connected.
    fold helper. fold (settleNamespace namespaceOverride u helper).
    fold applied. intro Happly.
    repeat next_result; inversion Happly; subst;
      split; try discriminate; auto. }
  destruct Hu' as [-> Hmd].
  assert (Happlied :
            applied = if (GetNamespace u =? "")%string
                      then SetNamespace u
                             (if (namespaceOverride =? "")%string
                              then "default" else namespaceOverride)
                      else u).
  { apply setters_namespace_scoped. unfold helper.
    rewrite NewHelper_scoped, Hscope. reflexivity. }
  rewrite Happlied in *. clear Happlied.
  repeat split.
  - intros -> ->. reflexivity.
  - intros -> Ho. cbn. rewrite (eqb_empty_false Ho). reflexivity.
  - intro Hu. rewrite (eqb_empty_false Hu). reflexivity.
  - destruct (GetNamespace u =? "")%string eqn:Hu; [reflexivity|].
    destruct u; reflexivity.
  - exact Hmd.
Qed.

(** Apply up to the existence check, once the type is resolved and the
    REST client is built. *)
Ltac apply_resolved :=
  unfold ApplyWithNamespaceOverride; run_client;
  fold gvk; rewrite resolved; cbn [cluster config];
  rewrite newRestClient_config with (cfg := config kube) by reflexivity;
  rewrite connected; fold helper;
  fold (settleNamespace namespaceOverride u helper); fold applied;
  unfold newInfo;
  cbn [infoClient infoMapping infoNamespace infoName config cluster calls];
  fold helper.

(** C3: when the existence check fails with a not-found error, Apply goes
    on to create: it issues the create call with the manifest, the cluster
    is as that call left it, and what Apply returns is decided by the answer
    of that call, the result on success and the create's error otherwise.
    When the existence check fails with any other error, Apply returns that
    error with an empty result, and the get is the only transport call it
    issued: no create, no replace. *)
Theorem apply_lookup_failure (e : error) (w2 : W) :
  helper_Get helper (GetNamespace applied) (GetName applied) w1
  = (Err e, w2) ->
  let get := CallGet restMapping (GetNamespace applied) (GetName applied) in
  let r := ApplyWithNamespaceOverride u namespaceOverride kube in
  (IsNotFound e = true ->
   calls (snd r)
   = calls kube
     ++ [get; CallCreate restMapping (GetNamespace applied) true applied] /\
   cluster (snd r)
   = snd (helper_Create helper (GetNamespace applied) true applied w2) /\
   fst r
   = match fst (helper_Create helper (GetNamespace applied) true applied w2)
     with
     | Ok _ =>
         (applied,
          {| Name := GetName applied;
             Namespace := GetNamespace applied;
             Resource := "";
             Group := "";
             Version := "";
             Kind := gvkKind (objGroupVersionKind applied) |},
          None)
     | Err createErr => (applied, emptyMetadata, Some createErr)
     end) /\
  (IsNotFound e = false ->
   fst r = (applied, emptyMetadata, Some e) /\
   calls (snd r) = calls kube ++ [get] /\
   cluster (snd r) = w2 /\
   existsb (fun c => isCreate c || isReplace c) (issued kube (snd r))
   = false).
Proof.
  intros Hget get r. subst r. split; intro Hnf.
  - apply_resolved. rewrite Hget. cbn. rewrite Hnf. cbn.
    destruct (helper_Create _ _ _ _ _) as [[created|ce] w3]; cbn;
      rewrite <- app_assoc; repeat split.
  - assert (Hr : ApplyWithNamespaceOverride u namespaceOverride kube
                 = (applied, emptyMetadata, Some e,
                    {| config := {| Host := Host (config kube);
                                    APIPath := APIPath (config kube);
                                    cfgGroupVersion :=
                                      Some (gvk_GroupVersion gvk) |};
                       cluster := w2;
                       calls := calls kube ++ [get] |})).
    { apply_resolved. rewrite Hget. cbn. rewrite Hnf. reflexivity. }
    rewrite Hr. cbn [fst snd calls cluster]. unfold issued.
    cbn [calls]. rewrite skipn_length_app. repeat split.
Qed.

(** C9: on the replace path, once the replace call has succeeded, a failing
    refresh of the local view changes nothing: Apply returns the result
    with no error. *)
Theorem apply_replace_swallows_refresh_failure
    (current replacedObject : Unstructured) (w2 w3 w4 : W)
    (refreshErr : error) :
  helper_Get helper (GetNamespace applied) (GetName applied) w1
  = (Ok current, w2) ->
  replace_object helper applied (GetNamespace applied) (GetName applied) w2
  = (Ok replacedObject, w3) ->
  info_Refresh
    (Info_withObject (newInfo restClient restMapping applied) current)
    replacedObject true w3
  = (Some refreshErr, w4) ->
  fst (ApplyWithNamespaceOverride u namespaceOverride kube)
  = (applied,
     {| Name := GetName applied;
        Namespace := GetNamespace applied;
        Resource := "";
        Group := "";
        Version := "";
        Kind := gvkKind gvk |},
     None).
Proof.
  intros Hget Hreplace Hrefresh.
  apply_resolved. rewrite Hget. cbn.
  rewrite Hreplace. cbn.
  unfold newInfo in Hrefresh. fold helper in Hrefresh.
  rewrite Hrefresh. reflexivity.
Qed.

End ApplyEngine.

Section ApplyResult.
Context {W : Type} `{Cluster W}.

(** The namespace setters touch the namespace field only. *)
Lemma setters_identity (namespace : string) (u : Unstructured)
    (helper : Helper) :
  GetName (settleNamespace namespace u helper) = GetName u /\
  objGroupVersionKind (settleNamespace namespace u helper)
  = objGroupVersionKind u.
Proof.
  unfold settleNamespace, setDefaultNamespaceIfScopedAndNoneSet,
    setNamespaceIfScoped.
  repeat match goal with
         | |- context [if ?b then _ else _] => destruct b
         end; split; reflexivity.
Qed.

(** Every failing path of Apply returns the [Metadata] it started with. *)
Lemma apply_failure_empty_metadata
    (kube kube' : KubeClient W) (u u' : Unstructured)
    (namespaceOverride : string) (metadata : Metadata) (e : error) :
  ApplyWithNamespaceOverride u namespaceOverride kube
  = (u', metadata, Some e, kube') ->
  metadata = emptyMetadata.
Proof.
  unfold ApplyWithNamespaceOverride. run_client. intro Happly.
  repeat next_result; inversion Happly; reflexivity.
Qed.

(** C4 (as amended): a successful Apply returns, on the create path and on
    the replace path alike, a result whose Name, Namespace and Kind are
    those of the manifest and whose Group, Version and Resource are left
    unset; the transport calls it issued are the get followed by either the
    create or the replace. *)
Theorem apply_success_metadata
    (kube kube' : KubeClient W) (u u' : Unstructured)
    (namespaceOverride : string) (metadata : Metadata) :
  ApplyWithNamespaceOverride u namespaceOverride kube
  = (u', metadata, None, kube') ->
  metadata = {| Name := GetName u;
                Namespace := GetNamespace u';
                Resource := "";
                Group := "";
                Version := "";
                Kind := gvkKind (objGroupVersionKind u) |} /\
  exists restMapping : RESTMapping,
    let get := CallGet restMapping (GetNamespace u') (GetName u') in
    calls kube'
    = calls kube
      ++ [get; CallCreate restMapping (GetNamespace u') true u'] \/
    calls kube'
    = calls kube
      ++ [get; CallReplace restMapping u' (GetNamespace u') (GetName u')].
Proof.
  unfold ApplyWithNamespaceOverride. run_client. intro Happly.
  repeat next_result; inversion Happly; subst; clear Happly;
    cbn [calls];
    match goal with
    | |- context [NewHelper ?c ?m] =>
        destruct (setters_identity namespaceOverride u (NewHelper c m))
          as [Hname Hgvk];
        unfold settleNamespace in Hname, Hgvk;
        split;
        [ cbn; rewrite ?Hname, ?Hgvk; reflexivity
        | exists m; cbv zeta; rewrite <- app_assoc; cbn [app];
          (left; reflexivity) || (right; reflexivity) ]
    end.
Qed.

End ApplyResult.

Section DeleteEngine.
Context {W : Type} `{Cluster W}.

Variables (kube : KubeClient W) (kind name : string) (opts : DeleteOptions).
Variables (gvk : GroupVersionKind) (w1 : W).
Variables (restMapping : RESTMapping) (w2 : W) (restClient : RESTClient).

Let helper := NewHelper restClient restMapping.
Let isNamespaceResource := (ToLower (gvkKind gvk) =? "namespace")%string.

Hypothesis resolvedKind :
  mapper_KindFor {| gvrGroup := ""; gvrVersion := ""; gvrResource := kind |}
                 (cluster kube)
  = (Ok gvk, w1).
Hypothesis resolved :
  mapper_RESTMapping (gvk_GroupKind gvk) (gvkVersion gvk) w1
  = (Ok restMapping, w2).
Hypothesis connected :
  newRestClient (config kube) (gvk_GroupVersion gvk) = Ok restClient.

(** The delete once the type is resolved: one call to the dynamic client,
    and a descriptor built from the arguments. *)
Lemma delete_resolved (namespace : string) :
  DeleteResourceByKindAndNameAndNamespace kind name namespace opts kube
  = let ns := if negb isNamespaceResource && (namespace =? "")%string
              then "default" else namespace in
    let target := if NamespaceScoped helper then Some ns else None in
    let (err, w3) :=
      dynamic_Delete (mapResource restMapping) target name opts w2 in
    (Some {| Name := name;
             Namespace := if isNamespaceResource then "" else ns;
             Resource := "";
             Group := "";
             Version := "";
             Kind := kind |},
     err,
     {| config := config kube;
        cluster := w3;
        calls := calls kube
                 ++ [CallDelete (mapResource restMapping) target name opts]
     |}).
Proof.
  unfold DeleteResourceByKindAndNameAndNamespace. run_client.
  rewrite resolvedKind. cbn [cluster config calls].
  rewrite resolved. cbn [cluster config calls].
  rewrite connected. fold helper. fold isNamespaceResource. cbv zeta.
  destruct (NamespaceScoped helper); cbn [cluster config calls];
    destruct (dynamic_Delete _ _ _ _ _) as [err w3]; reflexivity.
Qed.

(** C6: when the resolved kind is the namespace kind, the result's
    Namespace is "" for every namespace argument, and, the namespace kind
    being cluster-scoped, the argument reaches neither the call nor the
    outcome; for every other kind an empty namespace argument behaves as
    "default", in the call that is dispatched and in the result. *)
Theorem delete_namespace_argument :
  (ToLower (gvkKind gvk) = "namespace" ->
   (forall namespace : string,
      fst (fst (DeleteResourceByKindAndNameAndNamespace
                  kind name namespace opts kube))
      = Some {| Name := name; Namespace := ""; Resource := ""; Group := "";
                Version := ""; Kind := kind |}) /\
   (mapScope restMapping = RESTScopeNameRoot ->
    forall namespace : string,
      issued kube
        (snd (DeleteResourceByKindAndNameAndNamespace
                kind name namespace opts kube))
      = [CallDelete (mapResource restMapping) None name opts] /\
      DeleteResourceByKindAndNameAndNamespace kind name namespace opts kube
      = DeleteResourceByKindAndNameAndNamespace kind name "" opts kube)) /\
  (ToLower (gvkKind gvk) <> "namespace" ->
   fst (fst (DeleteResourceByKindAndNameAndNamespace kind name "" opts kube))
   = Some {| Name := name; Namespace := "default"; Resource := "";
             Group := ""; Version := ""; Kind := kind |} /\
   issued kube
     (snd (DeleteResourceByKindAndNameAndNamespace kind name "" opts kube))
   = [CallDelete (mapResource restMapping)
                 (if NamespaceScoped helper then Some "default" else None)
                 name opts] /\
   DeleteResourceByKindAndNameAndNamespace kind name "" opts kube
   = DeleteResourceByKindAndNameAndNamespace kind name "default" opts kube).
Proof.
  split.
  - intro Hkind.
    assert (Hns : isNamespaceResource = true).
    { unfold isNamespaceResource. rewrite Hkind. reflexivity. }
    split.
    + intro namespace. rewrite delete_resolved, Hns. cbv zeta.
      destruct (dynamic_Delete _ _ _ _ _). reflexivity.
    + intros Hscope namespace.
      assert (Hroot : NamespaceScoped helper = false).
      { unfold helper. rewrite NewHelper_scoped, Hscope. reflexivity. }
      rewrite !delete_resolved, Hns, Hroot. cbv zeta. cbn [negb andb].
      destruct (dynamic_Delete _ _ _ _ _). unfold issued. cbn [snd calls].
      rewrite skipn_length_app. split; reflexivity.
  - intro Hkind.
    assert (Hns : isNamespaceResource = false).
    { unfold isNamespaceResource. apply String.eqb_neq. exact Hkind. }
    rewrite !delete_resolved, Hns. cbv zeta. cbn.
    destruct (dynamic_Delete _ _ _ _ _). unfold issued. cbn [snd calls].
    rewrite skipn_length_app. repeat split.
Qed.

End DeleteEngine.

Section PatchEngine.
Context {W : Type} `{Cluster W}.

(** Every failing path of Patch returns the [Metadata] it started with and
    no object. *)
Lemma patch_failure_empty_metadata
    (kube kube' : KubeClient W) (kind name namespace : string)
    (p : list Byte.byte) (strategy : PatchType) (metadata : Metadata)
    (patched : option Unstructured) (e : error) :
  PatchUsingStrategy kind name namespace p strategy kube
  = (metadata, patched, Some e, kube') ->
  metadata = emptyMetadata /\ patched = None.
Proof.
  unfold PatchUsingStrategy. run_client. intro Hpatch.
  repeat next_result; inversion Hpatch; split; reflexivity.
Qed.

Variables (kube : KubeClient W) (kind name : string) (p : list Byte.byte)
          (strategy : PatchType).
Variables (gvk : GroupVersionKind) (w1 : W).
Variables (restMapping : RESTMapping) (w2 : W) (restClient : RESTClient).

Let helper := NewHelper restClient restMapping.

Hypothesis resolvedKind :
  mapper_KindFor {| gvrGroup := ""; gvrVersion := ""; gvrResource := kind |}
                 (cluster kube)
  = (Ok gvk, w1).
Hypothesis resolved :
  mapper_RESTMapping (gvk_GroupKind gvk) (gvkVersion gvk) w1
  = (Ok restMapping, w2).
Hypothesis connected :
  newRestClient (config kube) (gvk_GroupVersion gvk) = Ok restClient.

(** The patch once the type is resolved: one call to the dynamic client. *)
Lemma patch_resolved (namespace : string) :
  PatchUsingStrategy kind name namespace p strategy kube
  = let target := if NamespaceScoped helper then Some namespace else None in
    let (r, w3) :=
      dynamic_Patch (mapResource restMapping) target name strategy p w2 in
    (match r with
     | Err err => (emptyMetadata, None, Some err)
     | Ok u =>
         ({| Name := GetName u;
             Namespace := GetNamespace u;
             Resource := gvrResource (mapResource restMapping);
             Group := gvrGroup (mapResource restMapping);
             Version := gvrVersion (mapResource restMapping);
             Kind := gvkKind gvk |},
          Some u, None)
     end,
     {| config := config kube;
        cluster := w3;
        calls := calls kube
                 ++ [CallPatch (mapResource restMapping) target name
                               strategy p] |}).
Proof.
  unfold PatchUsingStrategy. run_client.
  rewrite resolvedKind. cbn [cluster config calls].
  rewrite resolved. cbn [cluster config calls].
  rewrite connected. fold helper. cbv zeta.
  destruct (NamespaceScoped helper); cbn [cluster config calls];
    destruct (dynamic_Patch _ _ _ _ _ _) as [[u|err] w3]; reflexivity.
Qed.

(** C8: the patch goes to the namespaced endpoint, with the namespace
    argument, when the resolved type is namespace-scoped, and to the
    cluster endpoint, whatever the namespace argument, otherwise; it is the
    only transport call.  When the dynamic client reports an error, a
    not-found one in particular, Patch returns that error with an empty
    result, and the cluster is as the patch call left it: nothing was
    created. *)
Theorem patch_dispatch (namespace : string) :
  let r := PatchUsingStrategy kind name namespace p strategy kube in
  (mapScope restMapping = RESTScopeNameNamespace ->
   issued kube (snd r)
   = [CallPatch (mapResource restMapping) (Some namespace) name strategy p])
  /\
  (mapScope restMapping = RESTScopeNameRoot ->
   issued kube (snd r)
   = [CallPatch (mapResource restMapping) None name strategy p] /\
   forall namespace' : string,
     PatchUsingStrategy kind name namespace' p strategy kube = r) /\
  (forall (e : error) (w3 : W),
     dynamic_Patch (mapResource restMapping)
                   (if NamespaceScoped helper then Some namespace else None)
                   name strategy p w2
     = (Err e, w3) ->
     fst r = (emptyMetadata, None, Some e) /\
     cluster (snd r) = w3 /\
     existsb isCreate (issued kube (snd r)) = false).
Proof.
  intro r. subst r. split; [|split].
  - intro Hscope. rewrite patch_resolved. unfold helper.
    rewrite NewHelper_scoped, Hscope. cbv zeta.
    destruct (dynamic_Patch _ _ _ _ _ _). unfold issued. cbn [snd calls].
    apply skipn_length_app.
  - intro Hscope. split.
    + rewrite patch_resolved. unfold helper.
      rewrite NewHelper_scoped, Hscope. cbv zeta.
      destruct (dynamic_Patch _ _ _ _ _ _). unfold issued. cbn [snd calls].
      apply skipn_length_app.
    + intro namespace'. rewrite !patch_resolved. unfold helper.
      rewrite NewHelper_scoped, Hscope. reflexivity.
  - intros e w3 Hpatch. rewrite patch_resolved. cbv zeta. rewrite Hpatch.
    unfold issued. cbn [fst snd calls cluster].
    rewrite skipn_length_app. repeat split.
Qed.

End PatchEngine.

Section NamespaceDeletion.
Context {W : Type} `{Cluster W}.

Variables (kube : KubeClient W) (namespace : string).
Variables (infos : list Info) (listErr : option error) (w1 : W).

Hypothesis listed :
  builder_Infos (config kube) namespace (cluster kube)
  = ((infos, listErr), w1).

Let namespaceRes : GroupVersionResource :=
  {| gvrGroup := ""; gvrVersion := "v1"; gvrResource := "namespaces" |}.

(** C7: DeleteNamespace issues the delete of the namespace object exactly
    when the listing of the namespace succeeded and is empty; when the
    listing has an entry it deletes nothing and returns no error; when the
    listing failed it returns that error and deletes nothing. *)
Theorem delete_namespace_only_when_empty :
  let r := DeleteNamespace namespace kube in
  (existsb isDelete (issued kube (snd r)) = true
   <-> listErr = None /\ infos = []) /\
  (listErr = None -> infos = [] ->
   issued kube (snd r)
   = [CallInfos namespace;
      CallDelete namespaceRes None namespace noDeleteOptions] /\
   fst r = fst (dynamic_Delete namespaceRes None namespace noDeleteOptions
                               w1)) /\
  (listErr = None -> infos <> [] ->
   fst r = None /\ issued kube (snd r) = [CallInfos namespace] /\
   cluster (snd r) = w1) /\
  (forall e : error, listErr = Some e ->
   fst r = Some e /\ issued kube (snd r) = [CallInfos namespace] /\
   cluster (snd r) = w1).
Proof.
  intro r. subst r.
  unfold DeleteNamespace. run_client. rewrite listed.
  cbn [config cluster calls]. unfold issued.
  destruct listErr as [e|]; [|destruct infos as [|info rest]];
    cbn [length Nat.eqb fst snd calls cluster].
  - rewrite skipn_length_app. cbn.
    intuition (try discriminate; try congruence).
  - fold namespaceRes.
    destruct (dynamic_Delete _ _ _ _ _) as [derr w3].
    cbn [fst snd calls cluster]. rewrite <- app_assoc.
    rewrite skipn_length_app. cbn.
    intuition (try discriminate; try congruence).
  - rewrite skipn_length_app. cbn.
    intuition (try discriminate; try congruence).
Qed.

End NamespaceDeletion.

Section ResultOnFailure.
Context {W : Type} `{Cluster W}.

(** C10: once the type is resolved and the delete call is issued, the
    delete returns a descriptor of the target (Kind, Name and Namespace as
    computed from the arguments) together with whatever the delete call
    returned, an error included; Apply and Patch, in contrast, return the
    empty result whenever they return an error. *)
Theorem delete_returns_descriptor_with_error
    (kube : KubeClient W) (kind name namespace : string)
    (opts : DeleteOptions) (gvk : GroupVersionKind) (w1 : W)
    (restMapping : RESTMapping) (w2 : W) (restClient : RESTClient)
    (deleteErr : option error) (w3 : W) :
  mapper_KindFor {| gvrGroup := ""; gvrVersion := ""; gvrResource := kind |}
                 (cluster kube)
  = (Ok gvk, w1) ->
  mapper_RESTMapping (gvk_GroupKind gvk) (gvkVersion gvk) w1
  = (Ok restMapping, w2) ->
  newRestClient (config kube) (gvk_GroupVersion gvk) = Ok restClient ->
  let isNamespaceResource := (ToLower (gvkKind gvk) =? "namespace")%string in
  let ns := if negb isNamespaceResource && (namespace =? "")%string
            then "default" else namespace in
  dynamic_Delete (mapResource restMapping)
                 (if NamespaceScoped (NewHelper restClient restMapping)
                  then Some ns else None)
                 name opts w2
  = (deleteErr, w3) ->
  fst (DeleteResourceByKindAndNameAndNamespace kind name namespace opts kube)
  = (Some {| Name := name;
             Namespace := if isNamespaceResource then "" else ns;
             Resource := "";
             Group := "";
             Version := "";
             Kind := kind |},
     deleteErr) /\
  (forall (kubeA kubeA' : KubeClient W) (u u' : Unstructured)
          (namespaceOverride : string) (metadata : Metadata) (e : error),
     ApplyWithNamespaceOverride u namespaceOverride kubeA
     = (u', metadata, Some e, kubeA') ->
     metadata = emptyMetadata) /\
  (forall (kubeP kubeP' : KubeClient W) (kindP nameP namespaceP : string)
          (p : list Byte.byte) (strategy : PatchType) (metadata : Metadata)
          (patched : option Unstructured) (e : error),
     PatchUsingStrategy kindP nameP namespaceP p strategy kubeP
     = (metadata, patched, Some e, kubeP') ->
     metadata = emptyMetadata /\ patched = None).
Proof.
  intros HkindFor Hmapping Hclient isNamespaceResource ns Hdelete.
  split; [|split].
  - rewrite (delete_resolved kube kind name opts HkindFor Hmapping Hclient).
    cbv zeta. fold isNamespaceResource. fold ns. rewrite Hdelete.
    reflexivity.
  - intros kubeA kubeA' u u' namespaceOverride metadata e.
    apply apply_failure_empty_metadata.
  - intros kubeP kubeP' kindP nameP namespaceP p strategy metadata patched e.
    apply patch_failure_empty_metadata.
Qed.

End ResultOnFailure.


(** * The statements on the in-memory cluster *)

(** Applying a ClusterRole that declares the namespace "foo", with the
    override "team-a", to an empty cluster. *)
Lemma apply_cluster_scoped_keeps_namespace_witness :
  let kube := client emptyCluster in
  let r := ApplyWithNamespaceOverride clusterRole "team-a" kube in
  let u' := fst (fst (fst r)) in
  let metadata := snd (fst (fst r)) in
  let err := snd (fst r) in
  mapper_RESTMapping (gvk_GroupKind (objGroupVersionKind clusterRole)) "v1"
                     (cluster kube)
  = (Ok (mapping clusterroles), emptyCluster) /\
  mapScope (mapping clusterroles) = RESTScopeNameRoot /\
  u' = clusterRole /\
  (err = None -> Namespace metadata = "foo") /\
  (GetNamespace u' = "" <-> GetNamespace clusterRole = "").
Proof.
  cbv zeta. split; [reflexivity | split; [reflexivity|]].
  exact (@apply_cluster_scoped_keeps_namespace State inMemoryCluster
           (client emptyCluster) _ clusterRole _ "team-a"
           (mapping clusterroles) emptyCluster _ _
           eq_refl eq_refl eq_refl).
Defined.

(** C1, as stated, fails: a ClusterRole that declares the namespace "foo" is
    applied with that namespace still on the manifest and in the result. *)
Lemma cluster_scoped_namespace_not_cleared :
  let kube := client emptyCluster in
  let r := ApplyWithNamespaceOverride clusterRole "team-a" kube in
  fst (mapper_RESTMapping (gvk_GroupKind (objGroupVersionKind clusterRole))
                          "v1" (cluster kube))
  = Ok (mapping clusterroles) /\
  mapScope (mapping clusterroles) = RESTScopeNameRoot /\
  snd (fst r) = None /\
  GetNamespace (fst (fst (fst r))) = "foo" /\
  Namespace (snd (fst (fst r))) = "foo" /\
  GetNamespace (fst (fst (fst r))) <> "" /\
  Namespace (snd (fst (fst r))) <> "".
Proof.
  cbv zeta. repeat split; try reflexivity; discriminate.
Qed.


(** Applying a ConfigMap that declares no namespace, with the override
    "team-a", to an empty cluster. *)
Lemma apply_namespace_scoped_namespace_witness :
  let kube := client emptyCluster in
  let r := ApplyWithNamespaceOverride configMap "team-a" kube in
  mapper_RESTMapping (gvk_GroupKind (objGroupVersionKind configMap)) "v1"
                     (cluster kube)
  = (Ok (mapping configmaps), emptyCluster) /\
  newRestClient (config kube) (gvk_GroupVersion (objGroupVersionKind configMap))
  = Ok (restClientFor "" "v1") /\
  mapScope (mapping configmaps) = RESTScopeNameNamespace /\
  GetNamespace (fst (fst (fst r))) = "team-a" /\
  Namespace (snd (fst (fst r))) = "team-a".
Proof.
  cbv zeta.
  pose proof (@apply_namespace_scoped_namespace State inMemoryCluster
                (client emptyCluster) configMap "team-a"
                (mapping configmaps) emptyCluster (restClientFor "" "v1")
                eq_refl eq_refl _ _ _ _ eq_refl eq_refl)
    as [_ [Hoverride [_ [_ Hresult]]]].
  split; [reflexivity | split; [reflexivity | split; [reflexivity|]]].
  split.
  - apply Hoverride; [reflexivity | discriminate].
  - apply Hresult. reflexivity.
Defined.

(** Applying a ConfigMap to an empty cluster, where the get reports
    not-found, and to a cluster whose get fails with a server error. *)
Lemma apply_lookup_failure_witness :
  (let r := ApplyWithNamespaceOverride configMap "" (client emptyCluster) in
   IsNotFound (notFound "cm1") = true /\
   calls (snd r)
   = [CallGet (mapping configmaps) "default" "cm1";
      CallCreate (mapping configmaps) "default" true
                 (SetNamespace configMap "default")] /\
   cluster (snd r) = clusterWith [configMap] /\
   fst r
   = (SetNamespace configMap "default",
      {| Name := "cm1"; Namespace := "default"; Resource := ""; Group := "";
         Version := ""; Kind := "ConfigMap" |},
      None)) /\
  (let r := ApplyWithNamespaceOverride configMap ""
              (client (failingGet emptyCluster)) in
   IsNotFound unavailable = false /\
   fst r = (SetNamespace configMap "default", emptyMetadata, Some unavailable)
   /\
   calls (snd r) = [CallGet (mapping configmaps) "default" "cm1"] /\
   cluster (snd r) = failingGet emptyCluster /\
   existsb (fun c => isCreate c || isReplace c)
           (issued (client (failingGet emptyCluster)) (snd r)) = false).
Proof.
  cbv zeta. split; (split; [reflexivity|]).
  - exact (proj1 (@apply_lookup_failure State inMemoryCluster
                    (client emptyCluster) configMap ""
                    (mapping configmaps) emptyCluster (restClientFor "" "v1")
                    eq_refl eq_refl (notFound "cm1") emptyCluster eq_refl)
                 eq_refl).
  - exact (proj2 (@apply_lookup_failure State inMemoryCluster
                    (client (failingGet emptyCluster)) configMap ""
                    (mapping configmaps) (failingGet emptyCluster)
                    (restClientFor "" "v1")
                    eq_refl eq_refl unavailable (failingGet emptyCluster)
                    eq_refl)
                 eq_refl).
Defined.

(** Applying a ConfigMap that the cluster already holds while the refresh of
    the local view fails. *)
Lemma apply_replace_swallows_refresh_failure_witness :
  let w := failingRefresh (clusterWith [configMap]) in
  let r := ApplyWithNamespaceOverride configMap "" (client w) in
  info_Refresh
    (Info_withObject
       (newInfo (restClientFor "" "v1") (mapping configmaps)
                (SetNamespace configMap "default"))
       (SetNamespace configMap "default"))
    (SetNamespace configMap "default") true w
  = (Some unavailable, w) /\
  fst r
  = (SetNamespace configMap "default",
     {| Name := "cm1"; Namespace := "default"; Resource := ""; Group := "";
        Version := ""; Kind := "ConfigMap" |},
     None) /\
  calls (snd r)
  = [CallGet (mapping configmaps) "default" "cm1";
     CallReplace (mapping configmaps) (SetNamespace configMap "default")
                 "default" "cm1"].
Proof.
  cbv zeta. split; [reflexivity | split; [|reflexivity]].
  exact (@apply_replace_swallows_refresh_failure State inMemoryCluster
           (client (failingRefresh (clusterWith [configMap]))) configMap ""
           (mapping configmaps) (failingRefresh (clusterWith [configMap]))
           (restClientFor "" "v1") eq_refl eq_refl
           (SetNamespace configMap "default")
           (SetNamespace configMap "default")
           (failingRefresh (clusterWith [configMap]))
           (failingRefresh (clusterWith [configMap]))
           (failingRefresh (clusterWith [configMap]))
           unavailable eq_refl eq_refl eq_refl).
Defined.

(** A first Apply of a Deployment, which creates it, and a second one, which
    replaces it. *)
Lemma apply_success_metadata_witness :
  (let r := ApplyWithNamespaceOverride deployment "" (client emptyCluster) in
   snd (fst r) = None /\
   snd (fst (fst r))
   = {| Name := "web"; Namespace := "prod"; Resource := ""; Group := "";
        Version := ""; Kind := "Deployment" |} /\
   calls (snd r)
   = [CallGet (mapping deployments) "prod" "web";
      CallCreate (mapping deployments) "prod" true deployment]) /\
  (let r := ApplyWithNamespaceOverride deployment ""
              (client (clusterWith [deployment])) in
   snd (fst r) = None /\
   snd (fst (fst r))
   = {| Name := "web"; Namespace := "prod"; Resource := ""; Group := "";
        Version := ""; Kind := "Deployment" |} /\
   calls (snd r)
   = [CallGet (mapping deployments) "prod" "web";
      CallReplace (mapping deployments) deployment "prod" "web"]).
Proof.
  cbv zeta. split; (split; [reflexivity | split; [|reflexivity]]).
  - exact (proj1 (@apply_success_metadata State inMemoryCluster
                    (client emptyCluster) _ deployment _ "" _ eq_refl)).
  - exact (proj1 (@apply_success_metadata State inMemoryCluster
                    (client (clusterWith [deployment])) _ deployment _ "" _
                    eq_refl)).
Defined.

(** C4, as stated, fails on the replace path: re-applying a Deployment
    replaces it, and the result carries neither the group "apps", nor the
    version "v1", nor the resource "deployments" of the resolved type. *)
Lemma replace_path_leaves_group_version_resource_unset :
  let kube := client (clusterWith [deployment]) in
  let r := ApplyWithNamespaceOverride deployment "" kube in
  let metadata := snd (fst (fst r)) in
  let resolvedType := mapResource (mapping deployments) in
  fst (mapper_RESTMapping (gvk_GroupKind (objGroupVersionKind deployment))
                          "v1" (cluster kube))
  = Ok (mapping deployments) /\
  snd (fst r) = None /\
  calls (snd r)
  = [CallGet (mapping deployments) "prod" "web";
     CallReplace (mapping deployments) deployment "prod" "web"] /\
  Group metadata = "" /\ Version metadata = "" /\ Resource metadata = "" /\
  Group metadata <> gvrGroup resolvedType /\
  Version metadata <> gvrVersion resolvedType /\
  Resource metadata <> gvrResource resolvedType.
Proof.
  cbv zeta. repeat split; try reflexivity; discriminate.
Qed.


(** C5 on the failing input: the delete of the pod p1, addressed by the
    resource name "pods", reports the Kind "pods", the caller's string, where
    discovery resolved the kind "Pod"; the patch of the same pod, addressed
    the same way, reports "Pod". *)
Lemma delete_reports_caller_kind :
  let kube := client (clusterWith [pod]) in
  fst (mapper_KindFor
         {| gvrGroup := ""; gvrVersion := ""; gvrResource := "pods" |}
         (cluster kube))
  = Ok {| gvkGroup := ""; gvkVersion := "v1"; gvkKind := "Pod" |} /\
  fst (DeleteResourceByKindAndNameAndNamespace
         "pods" "p1" "ns1" noDeleteOptions kube)
  = (Some {| Name := "p1"; Namespace := "ns1"; Resource := ""; Group := "";
             Version := ""; Kind := "pods" |},
     None) /\
  fst (Patch "pods" "p1" "ns1" [] kube)
  = ({| Name := "p1"; Namespace := "ns1"; Resource := "pods"; Group := "";
        Version := "v1"; Kind := "Pod" |},
     Some pod, None).
Proof.
  cbv zeta. repeat split.
Qed.

(** Whatever the cluster, the descriptor a delete returns carries the kind
    argument as its Kind. *)
Lemma delete_kind_is_argument (W : Type) (C : Cluster W)
    (kube kube' : KubeClient W) (kind name namespace : string)
    (opts : DeleteOptions) (metadata : Metadata) (err : option error) :
  DeleteResourceByKindAndNameAndNamespace kind name namespace opts kube
  = (Some metadata, err, kube') ->
  Kind metadata = kind.
Proof.
  unfold DeleteResourceByKindAndNameAndNamespace. run_client. intro Hdelete.
  repeat next_result; inversion Hdelete; reflexivity.
Qed.

(** Deleting the namespace team-a, addressed as "NS" with a namespace
    argument, and deleting a pod with no namespace argument. *)
Lemma delete_namespace_argument_witness :
  (let kube := client (clusterWith [team]) in
   let r := DeleteResourceByKindAndNameAndNamespace
              "NS" "team-a" "kube-system" noDeleteOptions kube in
   ToLower "Namespace" = "namespace" /\
   mapScope (mapping namespaces) = RESTScopeNameRoot /\
   fst (fst r)
   = Some {| Name := "team-a"; Namespace := ""; Resource := ""; Group := "";
             Version := ""; Kind := "NS" |} /\
   issued kube (snd r)
   = [CallDelete (mapResource (mapping namespaces)) None "team-a"
                 noDeleteOptions] /\
   r = DeleteResourceByKindAndNameAndNamespace
         "NS" "team-a" "" noDeleteOptions kube) /\
  (let kube := client (clusterWith [pod]) in
   let r := DeleteResourceByKindAndNameAndNamespace
              "pods" "p1" "" noDeleteOptions kube in
   ToLower "Pod" <> "namespace" /\
   fst (fst r)
   = Some {| Name := "p1"; Namespace := "default"; Resource := "";
             Group := ""; Version := ""; Kind := "pods" |} /\
   issued kube (snd r)
   = [CallDelete (mapResource (mapping pods)) (Some "default") "p1"
                 noDeleteOptions] /\
   r = DeleteResourceByKindAndNameAndNamespace
         "pods" "p1" "default" noDeleteOptions kube).
Proof.
  cbv zeta. split.
  - pose proof (proj1 (@delete_namespace_argument State inMemoryCluster
                         (client (clusterWith [team])) "NS" "team-a"
                         noDeleteOptions
                         (mapGroupVersionKind (mapping namespaces))
                         (clusterWith [team]) (mapping namespaces)
                         (clusterWith [team]) (restClientFor "" "v1")
                         eq_refl eq_refl eq_refl) eq_refl)
      as [Hresult Hignored].
    split; [reflexivity | split; [reflexivity|]].
    split; [exact (Hresult "kube-system")|].
    exact (Hignored eq_refl "kube-system").
  - assert (Hkind : ToLower "Pod" <> "namespace") by discriminate.
    split; [exact Hkind|].
    exact (proj2 (@delete_namespace_argument State inMemoryCluster
                    (client (clusterWith [pod])) "pods" "p1" noDeleteOptions
                    (mapGroupVersionKind (mapping pods))
                    (clusterWith [pod]) (mapping pods)
                    (clusterWith [pod]) (restClientFor "" "v1")
                    eq_refl eq_refl eq_refl) Hkind).
Defined.

(** Deleting a namespace with nothing in it, a namespace that holds a
    ConfigMap, and a namespace whose listing fails. *)
Lemma delete_namespace_only_when_empty_witness :
  (let kube := client (clusterWith [team]) in
   let r := DeleteNamespace "team-a" kube in
   builder_Infos (config kube) "team-a" (cluster kube)
   = (([], None), clusterWith [team]) /\
   existsb isDelete (issued kube (snd r)) = true /\
   issued kube (snd r)
   = [CallInfos "team-a";
      CallDelete {| gvrGroup := ""; gvrVersion := "v1";
                    gvrResource := "namespaces" |}
                 None "team-a" noDeleteOptions] /\
   fst r = None /\
   objects (cluster (snd r)) = []) /\
  (let kube := client (clusterWith [configMap]) in
   let r := DeleteNamespace "default" kube in
   fst (fst (builder_Infos (config kube) "default" (cluster kube))) <> [] /\
   existsb isDelete (issued kube (snd r)) = false /\
   fst r = None /\
   issued kube (snd r) = [CallInfos "default"] /\
   cluster (snd r) = clusterWith [configMap]) /\
  (let kube := client (failingInfos (clusterWith [team])) in
   let r := DeleteNamespace "team-a" kube in
   fst r = Some unavailable /\
   issued kube (snd r) = [CallInfos "team-a"] /\
   cluster (snd r) = failingInfos (clusterWith [team])).
Proof.
  cbv zeta. split; [|split].
  - pose proof (@delete_namespace_only_when_empty State inMemoryCluster
                  (client (clusterWith [team])) "team-a" [] None
                  (clusterWith [team]) eq_refl)
      as [Hiff [Hempty _]].
    cbv zeta in Hiff, Hempty.
    split; [reflexivity|].
    split; [apply Hiff; split; reflexivity|].
    destruct (Hempty eq_refl eq_refl) as [Hcalls Hresult].
    split; [exact Hcalls|].
    split; [exact Hresult | reflexivity].
  - pose proof (@delete_namespace_only_when_empty State inMemoryCluster
                  (client (clusterWith [configMap])) "default" _ None
                  (clusterWith [configMap]) eq_refl)
      as [Hiff [_ [Hkept _]]].
    cbv zeta in Hiff, Hkept.
    assert (Hlisting :
              fst (fst (builder_Infos
                          (config (client (clusterWith [configMap])))
                          "default"
                          (cluster (client (clusterWith [configMap])))))
              <> []) by discriminate.
    split; [exact Hlisting|].
    split.
    + destruct (existsb isDelete _) eqn:Hissued; [|reflexivity].
      destruct (proj1 Hiff eq_refl) as [_ Hnil]. discriminate Hnil.
    + exact (Hkept eq_refl Hlisting).
  - pose proof (@delete_namespace_only_when_empty State inMemoryCluster
                  (client (failingInfos (clusterWith [team]))) "team-a" []
                  (Some unavailable) (failingInfos (clusterWith [team]))
                  eq_refl)
      as [_ [_ [_ Hfailed]]].
    exact (Hfailed unavailable eq_refl).
Defined.


(** Patching a pod that does not exist in the namespace ns1, and patching a
    ClusterRole with a namespace argument. *)
Lemma patch_dispatch_witness :
  (let kube := client emptyCluster in
   let r := PatchUsingStrategy "po" "p1" "ns1" [] StrategicMergePatchType
                               kube in
   mapScope (mapping pods) = RESTScopeNameNamespace /\
   IsNotFound (notFound "p1") = true /\
   issued kube (snd r)
   = [CallPatch (mapResource (mapping pods)) (Some "ns1") "p1"
                StrategicMergePatchType []] /\
   fst r = (emptyMetadata, None, Some (notFound "p1")) /\
   cluster (snd r) = emptyCluster /\
   existsb isCreate (issued kube (snd r)) = false) /\
  (let kube := client (clusterWith [clusterRole]) in
   let r := PatchUsingStrategy "clusterrole" "cr1" "ns1" [] MergePatchType
                               kube in
   mapScope (mapping clusterroles) = RESTScopeNameRoot /\
   issued kube (snd r)
   = [CallPatch (mapResource (mapping clusterroles)) None "cr1"
                MergePatchType []] /\
   PatchUsingStrategy "clusterrole" "cr1" "kube-system" [] MergePatchType kube
   = r).
Proof.
  cbv zeta. split.
  - pose proof (@patch_dispatch State inMemoryCluster
                  (client emptyCluster) "po" "p1" [] StrategicMergePatchType
                  (mapGroupVersionKind (mapping pods)) emptyCluster
                  (mapping pods) emptyCluster (restClientFor "" "v1")
                  eq_refl eq_refl eq_refl "ns1")
      as [Hnamespaced [_ Hfailed]].
    cbv zeta in Hnamespaced, Hfailed.
    split; [reflexivity | split; [reflexivity|]].
    split; [exact (Hnamespaced eq_refl)|].
    exact (Hfailed (notFound "p1") emptyCluster eq_refl).
  - pose proof (@patch_dispatch State inMemoryCluster
                  (client (clusterWith [clusterRole])) "clusterrole" "cr1" []
                  MergePatchType
                  (mapGroupVersionKind (mapping clusterroles))
                  (clusterWith [clusterRole]) (mapping clusterroles)
                  (clusterWith [clusterRole])
                  (restClientFor "rbac.authorization.k8s.io" "v1")
                  eq_refl eq_refl eq_refl "ns1")
      as [_ [Hcluster _]].
    cbv zeta in Hcluster.
    split; [reflexivity|].
    destruct (Hcluster eq_refl) as [Hcall Hignored].
    split; [exact Hcall | exact (Hignored "kube-system")].
Defined.

(** Deleting a pod that does not exist: the descriptor comes back with the
    not-found error of the delete call. *)
Lemma delete_returns_descriptor_with_error_witness :
  let kube := client emptyCluster in
  dynamic_Delete (mapResource (mapping pods)) (Some "ns1") "p1"
                 noDeleteOptions emptyCluster
  = (Some (notFound "p1"), emptyCluster) /\
  fst (DeleteResourceByKindAndNameAndNamespace
         "pods" "p1" "ns1" noDeleteOptions kube)
  = (Some {| Name := "p1"; Namespace := "ns1"; Resource := ""; Group := "";
             Version := ""; Kind := "pods" |},
     Some (notFound "p1")) /\
  snd (fst (fst (ApplyWithNamespaceOverride
                   (manifest "" "v1" "Gadget" "g1" "") "" kube)))
  = emptyMetadata /\
  fst (fst (fst (PatchUsingStrategy "pods" "p1" "ns1" []
                                    StrategicMergePatchType kube)))
  = emptyMetadata.
Proof.
  cbv zeta.
  pose proof (@delete_returns_descriptor_with_error State inMemoryCluster
                (client emptyCluster) "pods" "p1" "ns1" noDeleteOptions
                (mapGroupVersionKind (mapping pods)) emptyCluster
                (mapping pods) emptyCluster (restClientFor "" "v1")
                (Some (notFound "p1")) emptyCluster
                eq_refl eq_refl eq_refl eq_refl)
    as [Hdelete [Happly Hpatch]].
  split; [reflexivity | split; [exact Hdelete | split]].
  - exact (Happly (client emptyCluster) _
                  (manifest "" "v1" "Gadget" "g1" "") _ "" _
                  (noMatch "Gadget") eq_refl).
  - exact (proj1 (Hpatch (client emptyCluster) _ "pods" "p1" "ns1" []
                         StrategicMergePatchType _ _ (notFound "p1") eq_refl)).
Defined.



(** * Further properties of the methods *)

Lemma issued_app (W : Type) (before after : KubeClient W) (l : list Call) :
  calls after = calls before ++ l -> issued before after = l.
Proof.
  intro Hcalls. unfold issued. rewrite Hcalls. apply skipn_length_app.
Qed.

Lemma issued_none (W : Type) (before after : KubeClient W) :
  calls after = calls before -> issued before after = [].
Proof.
  intro Hcalls. apply issued_app. rewrite app_nil_r. exact Hcalls.
Qed.

(** X2: the two namespace setters, in the order in which Apply runs them.
    The second never changes what the first returned.  The first writes the
    namespace field and nothing else, and only on a manifest of a
    namespace-scoped type that declares no namespace: a declared namespace
    is kept for every scope and override, a manifest of a cluster-scoped
    type is returned as it is, and a manifest of a namespace-scoped type
    never comes out with an empty namespace. *)
Theorem namespace_setters_compose
    (namespaceOverride : string) (u : Unstructured) (helper : Helper) :
  let defaulted :=
    setDefaultNamespaceIfScopedAndNoneSet namespaceOverride u helper in
  setNamespaceIfScoped namespaceOverride defaulted helper = defaulted /\
  defaulted = SetNamespace u (GetNamespace defaulted) /\
  (GetNamespace u <> "" -> defaulted = u) /\
  (NamespaceScoped helper = false -> defaulted = u) /\
  (NamespaceScoped helper = true -> GetNamespace defaulted <> "").
Proof.
  cbv zeta.
  unfold setNamespaceIfScoped, setDefaultNamespaceIfScopedAndNoneSet.
  assert (Hsame : u = SetNamespace u (GetNamespace u))
    by (destruct u; reflexivity).
  destruct (NamespaceScoped helper).
  - destruct (GetNamespace u =? "")%string eqn:Hu.
    + destruct (namespaceOverride =? "")%string eqn:Ho.
      * repeat split; try discriminate.
        intro Hdeclared. apply String.eqb_eq in Hu. contradiction.
      * assert (Hov : namespaceOverride <> "")
          by (apply String.eqb_neq; exact Ho).
        cbn [GetNamespace SetNamespace objNamespace]. rewrite Ho.
        cbn [andb]. repeat split; try discriminate.
        -- intro Hdeclared. apply String.eqb_eq in Hu. contradiction.
        -- intros _. exact Hov.
    + rewrite Hu. cbn [andb].
      repeat split; try exact Hsame.
      intros _. apply String.eqb_neq. exact Hu.
  - rewrite andb_false_r.
    repeat split; try exact Hsame. discriminate.
Qed.

Section ApplyOutcomes.
Context {W : Type} `{Cluster W}.

(** X1: whatever the cluster answers, Apply issues no transport call, or
    the existence get alone, or the get followed by one create, or the get
    followed by one replace, all addressed by the namespace and name the
    manifest ends with; it never deletes or patches.  With no call at all
    Apply has failed and the manifest is as the caller passed it. *)
Theorem apply_transport_footprint
    (kube kube' : KubeClient W) (u u' : Unstructured)
    (namespaceOverride : string) (metadata : Metadata) (err : option error) :
  ApplyWithNamespaceOverride u namespaceOverride kube
  = (u', metadata, err, kube') ->
  (issued kube kube' = [] /\ err <> None /\ u' = u) \/
  exists restMapping : RESTMapping,
    let get := CallGet restMapping (GetNamespace u') (GetName u') in
    (issued kube kube' = [get] /\ err <> None) \/
    issued kube kube'
    = [get; CallCreate restMapping (GetNamespace u') true u'] \/
    (issued kube kube'
     = [get; CallReplace restMapping u' (GetNamespace u') (GetName u')]).
Proof.
  unfold ApplyWithNamespaceOverride. run_client. intro Happly.
  repeat next_result; inversion Happly; subst; clear Happly;
    try (left; split; [apply issued_none; reflexivity
                      | split; [discriminate | reflexivity]]);
    right;
    match goal with
    | |- context [NewHelper ?c ?m] => exists m
    end;
    cbv zeta;
    first
      [ left; split; [apply issued_app; reflexivity | discriminate]
      | right; left; apply issued_app; cbn [calls];
        rewrite <- app_assoc; reflexivity
      | right; right; apply issued_app; cbn [calls];
        rewrite <- app_assoc; reflexivity ].
Qed.

(** X3: when discovery does not resolve the manifest's type, Apply returns
    the mapper's error with an empty result; it sends nothing, and leaves the
    manifest and the configuration as they were. *)
Theorem apply_unresolved_type
    (kube : KubeClient W) (u : Unstructured) (namespaceOverride : string)
    (e : error) (w1 : W) :
  mapper_RESTMapping (gvk_GroupKind (objGroupVersionKind u))
                     (gvkVersion (objGroupVersionKind u)) (cluster kube)
  = (Err e, w1) ->
  let r := ApplyWithNamespaceOverride u namespaceOverride kube in
  fst r = (u, emptyMetadata, Some e) /\
  issued kube (snd r) = [] /\
  config (snd r) = config kube /\
  cluster (snd r) = w1.
Proof.
  intros Hmap r. subst r.
  unfold ApplyWithNamespaceOverride. run_client. rewrite Hmap.
  cbn [fst snd config cluster calls].
  repeat split. apply issued_none. reflexivity.
Qed.

(** X4: when the REST client cannot be built, Apply returns that error with
    an empty result before the namespace setters run: the manifest is
    untouched even if it has no namespace, and nothing is sent.  The group
    version of the manifest has already been written to the
    configuration. *)
Theorem apply_without_rest_client
    (kube : KubeClient W) (u : Unstructured) (namespaceOverride : string)
    (restMapping : RESTMapping) (w1 : W) (e : error) :
  mapper_RESTMapping (gvk_GroupKind (objGroupVersionKind u))
                     (gvkVersion (objGroupVersionKind u)) (cluster kube)
  = (Ok restMapping, w1) ->
  newRestClient (config kube) (gvk_GroupVersion (objGroupVersionKind u))
  = Err e ->
  let r := ApplyWithNamespaceOverride u namespaceOverride kube in
  fst r = (u, emptyMetadata, Some e) /\
  issued kube (snd r) = [] /\
  cfgGroupVersion (config (snd r))
  = Some (gvk_GroupVersion (objGroupVersionKind u)) /\
  cluster (snd r) = w1.
Proof.
  intros Hmap Hclient r. subst r.
  unfold ApplyWithNamespaceOverride. run_client. rewrite Hmap.
  cbn [config cluster calls].
  rewrite newRestClient_config with (cfg := config kube) by reflexivity.
  rewrite Hclient. cbn [fst snd config cluster calls cfgGroupVersion].
  repeat split. apply issued_none. reflexivity.
Qed.

Section Resolved.
Variables (kube : KubeClient W) (u : Unstructured)
          (namespaceOverride : string).
Variables (restMapping : RESTMapping) (w1 : W) (restClient : RESTClient).

Let gvk := objGroupVersionKind u.
Let helper := NewHelper restClient restMapping.
Let applied := settleNamespace namespaceOverride u helper.
Let get := CallGet restMapping (GetNamespace applied) (GetName applied).

Hypothesis resolved :
  mapper_RESTMapping (gvk_GroupKind gvk) (gvkVersion gvk) (cluster kube)
  = (Ok restMapping, w1).
Hypothesis connected :
  newRestClient (config kube) (gvk_GroupVersion gvk) = Ok restClient.

Ltac to_lookup :=
  unfold ApplyWithNamespaceOverride; run_client;
  fold gvk; rewrite resolved; cbn [cluster config];
  rewrite newRestClient_config with (cfg := config kube) by reflexivity;
  rewrite connected; fold helper;
  fold (settleNamespace namespaceOverride u helper); fold applied;
  unfold newInfo;
  cbn [infoClient infoMapping infoNamespace infoName config cluster calls];
  fold helper.

(** X5: when the get reports not-found and the create call then fails,
    Apply returns the error of the create with an empty result; the get and
    the create are the calls it issued, there is no retry and no replace,
    and the cluster is as the create left it. *)
Theorem apply_create_failure (e createErr : error) (w2 w3 : W) :
  helper_Get helper (GetNamespace applied) (GetName applied) w1
  = (Err e, w2) ->
  IsNotFound e = true ->
  helper_Create helper (GetNamespace applied) true applied w2
  = (Err createErr, w3) ->
  let r := ApplyWithNamespaceOverride u namespaceOverride kube in
  fst r = (applied, emptyMetadata, Some createErr) /\
  issued kube (snd r)
  = [get; CallCreate restMapping (GetNamespace applied) true applied] /\
  cluster (snd r) = w3.
Proof.
  intros Hget Hnf Hcreate r. subst r.
  to_lookup. rewrite Hget. cbn. rewrite Hnf. cbn. rewrite Hcreate.
  cbn [fst snd config cluster calls]. repeat split.
  apply issued_app. rewrite <- app_assoc. reflexivity.
Qed.

(** X6: when the object exists and the replace call fails, Apply returns
    the error of the replace with an empty result; the get and the replace
    are the calls it issued, and the cluster is as the replace left it: the
    refresh is not run and nothing is created. *)
Theorem apply_replace_failure
    (current : Unstructured) (replaceErr : error) (w2 w3 : W) :
  helper_Get helper (GetNamespace applied) (GetName applied) w1
  = (Ok current, w2) ->
  replace_object helper applied (GetNamespace applied) (GetName applied) w2
  = (Err replaceErr, w3) ->
  let r := ApplyWithNamespaceOverride u namespaceOverride kube in
  fst r = (applied, emptyMetadata, Some replaceErr) /\
  issued kube (snd r)
  = [get; CallReplace restMapping applied (GetNamespace applied)
                      (GetName applied)] /\
  cluster (snd r) = w3.
Proof.
  intros Hget Hreplace r. subst r.
  to_lookup. rewrite Hget. cbn. rewrite Hreplace.
  cbn [fst snd config cluster calls]. repeat split.
  apply issued_app. rewrite <- app_assoc. reflexivity.
Qed.

End Resolved.

(** X7: Apply writes to the client's configuration, which every later call
    shares: it leaves the host and the API path alone and sets the group
    version to the manifest's as soon as the type is resolved, so on every
    path that sends something and on every successful one.  The REST client
    that a later call builds is not affected. *)
Theorem apply_config_effect
    (kube kube' : KubeClient W) (u u' : Unstructured)
    (namespaceOverride : string) (metadata : Metadata) (err : option error) :
  ApplyWithNamespaceOverride u namespaceOverride kube
  = (u', metadata, err, kube') ->
  let written :=
    {| Host := Host (config kube);
       APIPath := APIPath (config kube);
       cfgGroupVersion :=
         Some (gvk_GroupVersion (objGroupVersionKind u)) |} in
  (config kube' = config kube \/ config kube' = written) /\
  (issued kube kube' <> [] -> config kube' = written) /\
  (err = None -> config kube' = written) /\
  (forall gv : GroupVersion,
     newRestClient (config kube') gv = newRestClient (config kube) gv).
Proof.
  intro Happly. cbv zeta.
  set (written := {| Host := Host (config kube);
                     APIPath := APIPath (config kube);
                     cfgGroupVersion :=
                       Some (gvk_GroupVersion (objGroupVersionKind u)) |}).
  revert Happly. unfold ApplyWithNamespaceOverride. run_client.
  fold written. intro Happly.
  assert (Hkept : forall gv : GroupVersion,
                    newRestClient written gv = newRestClient (config kube) gv)
    by (intro gv; reflexivity).
  repeat next_result; inversion Happly; subst; clear Happly;
    cbn [config];
    (split; [(left; reflexivity) || (right; reflexivity)|]);
    (split; [intro Hsent; try reflexivity;
             exfalso; apply Hsent; apply issued_none; reflexivity|]);
    (split; [intro Hok; try reflexivity; discriminate Hok|]);
    try exact Hkept; reflexivity.
Qed.

End ApplyOutcomes.

Section DeleteOutcomes.
Context {W : Type} `{Cluster W}.

(** X8: a delete returns a nil descriptor exactly when it sent nothing,
    and then it returns an error; a descriptor comes with exactly one delete
    call, for the name and with the options the caller gave. *)
Theorem delete_nil_iff_nothing_sent
    (kube kube' : KubeClient W) (kind name namespace : string)
    (opts : DeleteOptions) (metadata : option Metadata)
    (err : option error) :
  DeleteResourceByKindAndNameAndNamespace kind name namespace opts kube
  = (metadata, err, kube') ->
  (metadata = None <-> issued kube kube' = []) /\
  (metadata = None -> err <> None) /\
  (metadata <> None ->
   exists (resource : GroupVersionResource) (target : option string),
     issued kube kube' = [CallDelete resource target name opts]).
Proof.
  unfold DeleteResourceByKindAndNameAndNamespace. run_client. intro Hdelete.
  repeat next_result; inversion Hdelete; subst; clear Hdelete;
    cbn [calls];
    match goal with
    | |- context [issued kube ?k] =>
        first
          [ rewrite (@issued_none _ kube k eq_refl);
            split; [split; reflexivity|];
            split; [discriminate | intro Hsome; contradiction]
          | match goal with
            | |- context [CallDelete ?r ?t name opts] =>
                rewrite (@issued_app _ kube k [CallDelete r t name opts]
                                     eq_refl);
                split; [split; discriminate|];
                split; [discriminate | intros _; exists r, t; reflexivity]
            end ]
    end.
Qed.

(** X9: for a cluster-scoped type other than the namespace kind, the delete
    goes to the cluster endpoint, with no namespace, yet the descriptor it
    returns carries one: "default" when the argument is empty, the argument
    otherwise. *)
Theorem delete_cluster_scoped_descriptor
    (kube : KubeClient W) (kind name namespace : string)
    (opts : DeleteOptions) (gvk : GroupVersionKind) (w1 : W)
    (restMapping : RESTMapping) (w2 : W) (restClient : RESTClient) :
  mapper_KindFor {| gvrGroup := ""; gvrVersion := ""; gvrResource := kind |}
                 (cluster kube)
  = (Ok gvk, w1) ->
  mapper_RESTMapping (gvk_GroupKind gvk) (gvkVersion gvk) w1
  = (Ok restMapping, w2) ->
  newRestClient (config kube) (gvk_GroupVersion gvk) = Ok restClient ->
  ToLower (gvkKind gvk) <> "namespace" ->
  mapScope restMapping = RESTScopeNameRoot ->
  let r := DeleteResourceByKindAndNameAndNamespace
             kind name namespace opts kube in
  issued kube (snd r) = [CallDelete (mapResource restMapping) None name opts]
  /\
  fst (fst r)
  = Some {| Name := name;
            Namespace := if (namespace =? "")%string then "default"
                         else namespace;
            Resource := "";
            Group := "";
            Version := "";
            Kind := kind |}.
Proof.
  intros HkindFor Hmapping Hclient Hkind Hscope r. subst r.
  rewrite (delete_resolved kube kind name opts HkindFor Hmapping Hclient).
  rewrite NewHelper_scoped, Hscope.
  apply String.eqb_neq in Hkind. rewrite Hkind. cbv zeta. cbn [negb andb].
  destruct (dynamic_Delete _ _ _ _ _) as [derr w3].
  cbn [fst snd]. split; [apply issued_app; reflexivity | reflexivity].
Qed.

End DeleteOutcomes.

Section PatchOutcomes.
Context {W : Type} `{Cluster W}.

(** X10: a patch returns the patched object exactly when it returns no
    error; it issues no transport call, and then fails, or exactly one patch
    call, for the name, with the strategy and the bytes the caller gave. *)
Theorem patch_outcome_shape
    (kube kube' : KubeClient W) (kind name namespace : string)
    (p : list Byte.byte) (strategy : PatchType) (metadata : Metadata)
    (patched : option Unstructured) (err : option error) :
  PatchUsingStrategy kind name namespace p strategy kube
  = (metadata, patched, err, kube') ->
  (patched = None <-> err <> None) /\
  ((issued kube kube' = [] /\ err <> None) \/
   exists (resource : GroupVersionResource) (target : option string),
     issued kube kube' = [CallPatch resource target name strategy p]).
Proof.
  unfold PatchUsingStrategy. run_client. intro Hpatch.
  repeat next_result; inversion Hpatch; subst; clear Hpatch;
    cbn [calls];
    (split;
     [ first [ split; [intros _; discriminate | intros _; reflexivity]
             | split; [discriminate | intro Herr; contradiction] ]
     | ]);
    try (left; split; [apply issued_none; reflexivity | discriminate]);
    right;
    match goal with
    | |- context [CallPatch ?r ?t name strategy p] =>
        exists r, t; apply issued_app; reflexivity
    end.
Qed.

(** X11: a successful patch returns all six fields of the result: Name and
    Namespace are those of the object the cluster returned, not the
    arguments; Group, Version and Resource are those of the resolved
    resource; Kind is the resolved kind.  The object is returned with it. *)
Theorem patch_success_metadata
    (kube : KubeClient W) (kind name namespace : string)
    (p : list Byte.byte) (strategy : PatchType) (gvk : GroupVersionKind)
    (w1 : W) (restMapping : RESTMapping) (w2 : W) (restClient : RESTClient)
    (patched : Unstructured) (w3 : W) :
  mapper_KindFor {| gvrGroup := ""; gvrVersion := ""; gvrResource := kind |}
                 (cluster kube)
  = (Ok gvk, w1) ->
  mapper_RESTMapping (gvk_GroupKind gvk) (gvkVersion gvk) w1
  = (Ok restMapping, w2) ->
  newRestClient (config kube) (gvk_GroupVersion gvk) = Ok restClient ->
  dynamic_Patch (mapResource restMapping)
                (if NamespaceScoped (NewHelper restClient restMapping)
                 then Some namespace else None)
                name strategy p w2
  = (Ok patched, w3) ->
  fst (PatchUsingStrategy kind name namespace p strategy kube)
  = ({| Name := GetName patched;
        Namespace := GetNamespace patched;
        Resource := gvrResource (mapResource restMapping);
        Group := gvrGroup (mapResource restMapping);
        Version := gvrVersion (mapResource restMapping);
        Kind := gvkKind gvk |},
     Some patched, None).
Proof.
  intros HkindFor Hmapping Hclient Hpatch.
  rewrite (patch_resolved kube kind name p strategy
                          HkindFor Hmapping Hclient).
  cbv zeta. rewrite Hpatch. reflexivity.
Qed.

End PatchOutcomes.

Section ReadOutcomes.
Import Reads.
Context {W : Type} {C : Cluster W} {R : Reader W}.

(** The get once the type is resolved: one read of the dynamic client. *)
Lemma get_resolved
    (kube : KubeClient W) (kind name namespace : string)
    (gvk : GroupVersionKind) (w1 : W) (restMapping : RESTMapping) (w2 : W)
    (restClient : RESTClient) :
  mapper_KindFor {| gvrGroup := ""; gvrVersion := ""; gvrResource := kind |}
                 (cluster kube)
  = (Ok gvk, w1) ->
  mapper_RESTMapping (gvk_GroupKind gvk) (gvkVersion gvk) w1
  = (Ok restMapping, w2) ->
  newRestClient (config kube) (gvk_GroupVersion gvk) = Ok restClient ->
  Get kind name namespace kube
  = let target := if NamespaceScoped (NewHelper restClient restMapping)
                  then Some namespace else None in
    let (r, w3) := dynamic_Get (mapResource restMapping) target name w2 in
    (returned r,
     {| config := config kube; cluster := w3; calls := calls kube |}).
Proof.
  intros HkindFor Hmapping Hclient.
  unfold Get. run_client.
  rewrite HkindFor. cbn [cluster config calls].
  rewrite Hmapping. cbn [cluster config calls].
  rewrite Hclient. cbv zeta.
  destruct (NamespaceScoped _); cbn [cluster config calls];
    destruct (dynamic_Get _ _ _ _) as [r w3]; reflexivity.
Qed.

(** X12: Get reads from the namespaced endpoint, with the namespace exactly
    as the caller gave it, when the resolved type is namespace-scoped, and
    from the cluster endpoint otherwise, where the namespace argument has no
    effect at all; what the dynamic client answers is what Get returns, an
    error included, and nothing is sent that could create the object. *)
Theorem get_dispatch
    (kube : KubeClient W) (kind name namespace : string)
    (gvk : GroupVersionKind) (w1 : W) (restMapping : RESTMapping) (w2 : W)
    (restClient : RESTClient) :
  mapper_KindFor {| gvrGroup := ""; gvrVersion := ""; gvrResource := kind |}
                 (cluster kube)
  = (Ok gvk, w1) ->
  mapper_RESTMapping (gvk_GroupKind gvk) (gvkVersion gvk) w1
  = (Ok restMapping, w2) ->
  newRestClient (config kube) (gvk_GroupVersion gvk) = Ok restClient ->
  let r := Get kind name namespace kube in
  (mapScope restMapping = RESTScopeNameNamespace ->
   fst r = returned (fst (dynamic_Get (mapResource restMapping)
                                      (Some namespace) name w2))) /\
  (mapScope restMapping = RESTScopeNameRoot ->
   fst r = returned (fst (dynamic_Get (mapResource restMapping)
                                      None name w2)) /\
   forall namespace' : string, Get kind name namespace' kube = r) /\
  issued kube (snd r) = [].
Proof.
  intros HkindFor Hmapping Hclient r. subst r.
  split; [|split].
  - intro Hscope. rewrite (get_resolved kube kind name _ HkindFor Hmapping Hclient).
    rewrite NewHelper_scoped, Hscope. cbv zeta.
    destruct (dynamic_Get _ _ _ _). reflexivity.
  - intro Hscope. split.
    + rewrite (get_resolved kube kind name _ HkindFor Hmapping Hclient).
      rewrite NewHelper_scoped, Hscope. cbv zeta.
      destruct (dynamic_Get _ _ _ _). reflexivity.
    + intro namespace'.
      rewrite !(get_resolved kube kind name _ HkindFor Hmapping Hclient).
      rewrite NewHelper_scoped, Hscope. reflexivity.
  - rewrite (get_resolved kube kind name _ HkindFor Hmapping Hclient). cbv zeta.
    destruct (dynamic_Get _ _ _ _). apply issued_none. reflexivity.
Qed.

(** X13: Get and the delete treat an empty namespace argument differently:
    for a namespace-scoped type, the delete addresses the namespace
    "default" while Get reads with the empty namespace. *)
Theorem get_does_not_default_namespace
    (kube : KubeClient W) (kind name : string) (opts : DeleteOptions)
    (gvk : GroupVersionKind) (w1 : W) (restMapping : RESTMapping) (w2 : W)
    (restClient : RESTClient) :
  mapper_KindFor {| gvrGroup := ""; gvrVersion := ""; gvrResource := kind |}
                 (cluster kube)
  = (Ok gvk, w1) ->
  mapper_RESTMapping (gvk_GroupKind gvk) (gvkVersion gvk) w1
  = (Ok restMapping, w2) ->
  newRestClient (config kube) (gvk_GroupVersion gvk) = Ok restClient ->
  mapScope restMapping = RESTScopeNameNamespace ->
  ToLower (gvkKind gvk) <> "namespace" ->
  issued kube
    (snd (DeleteResourceByKindAndNameAndNamespace kind name "" opts kube))
  = [CallDelete (mapResource restMapping) (Some "default") name opts] /\
  Get kind name "" kube
  = (returned (fst (dynamic_Get (mapResource restMapping) (Some "") name w2)),
     {| config := config kube;
        cluster := snd (dynamic_Get (mapResource restMapping) (Some "")
                                    name w2);
        calls := calls kube |}).
Proof.
  intros HkindFor Hmapping Hclient Hscope Hkind. split.
  - rewrite (delete_resolved kube kind name opts HkindFor Hmapping Hclient).
    rewrite NewHelper_scoped, Hscope.
    apply String.eqb_neq in Hkind. rewrite Hkind. cbv zeta. cbn.
    destruct (dynamic_Delete _ _ _ _ _). apply issued_app. reflexivity.
  - rewrite (get_resolved kube kind name _ HkindFor Hmapping Hclient).
    rewrite NewHelper_scoped, Hscope. cbv zeta.
    destruct (dynamic_Get _ _ _ _). reflexivity.
Qed.

(** X14: Get returns a nil object and the error, and never reaches the
    dynamic client, when the kind is not resolved, when the resolved kind
    has no mapping, and when the REST client cannot be built. *)
Theorem get_unresolved
    (kube : KubeClient W) (kind name namespace : string) :
  let asked := {| gvrGroup := ""; gvrVersion := ""; gvrResource := kind |} in
  (forall (e : error) (w1 : W),
     mapper_KindFor asked (cluster kube) = (Err e, w1) ->
     Get kind name namespace kube
     = (None, Some e,
        {| config := config kube; cluster := w1; calls := calls kube |})) /\
  (forall (gvk : GroupVersionKind) (w1 : W) (e : error) (w2 : W),
     mapper_KindFor asked (cluster kube) = (Ok gvk, w1) ->
     mapper_RESTMapping (gvk_GroupKind gvk) (gvkVersion gvk) w1
     = (Err e, w2) ->
     Get kind name namespace kube
     = (None, Some e,
        {| config := config kube; cluster := w2; calls := calls kube |})) /\
  (forall (gvk : GroupVersionKind) (w1 : W) (restMapping : RESTMapping)
          (w2 : W) (e : error),
     mapper_KindFor asked (cluster kube) = (Ok gvk, w1) ->
     mapper_RESTMapping (gvk_GroupKind gvk) (gvkVersion gvk) w1
     = (Ok restMapping, w2) ->
     newRestClient (config kube) (gvk_GroupVersion gvk) = Err e ->
     Get kind name namespace kube
     = (None, Some e,
        {| config := config kube; cluster := w2; calls := calls kube |})).
Proof.
  cbv zeta. split; [|split].
  - intros e w1 HkindFor. unfold Get. run_client. rewrite HkindFor.
    reflexivity.
  - intros gvk w1 e w2 HkindFor Hmapping. unfold Get. run_client.
    rewrite HkindFor. cbn [cluster config calls]. rewrite Hmapping.
    reflexivity.
  - intros gvk w1 restMapping w2 e HkindFor Hmapping Hclient.
    unfold Get. run_client.
    rewrite HkindFor. cbn [cluster config calls]. rewrite Hmapping.
    cbn [cluster config calls]. rewrite Hclient. reflexivity.
Qed.

(** X15: ListResource resolves the name through the resource lookup of the
    mapper alone and lists that resource with the options as the caller gave
    them, across namespaces; it returns the list or the error of the dynamic
    client.  When the name is not resolved it returns that error and the
    dynamic client is not reached. *)
Theorem list_resource_outcome
    (kube : KubeClient W) (resource : string) (lo : ListOptions)
    (resolution : result GroupVersionResource) (w1 : W) :
  mapper_ResourceFor
    {| gvrGroup := ""; gvrVersion := ""; gvrResource := resource |}
    (cluster kube)
  = (resolution, w1) ->
  let r := ListResource resource lo kube in
  match resolution with
  | Ok gvr =>
      fst r = returned (fst (dynamic_List gvr lo w1)) /\
      cluster (snd r) = snd (dynamic_List gvr lo w1)
  | Err e => fst r = (None, Some e) /\ cluster (snd r) = w1
  end /\
  (fst (fst r) = None <-> snd (fst r) <> None) /\
  issued kube (snd r) = [] /\
  config (snd r) = config kube.
Proof.
  intros Hresolve r. subst r. unfold ListResource. run_client.
  rewrite Hresolve. cbn [cluster config calls].
  destruct resolution as [gvr|e].
  - cbn [cluster config calls].
    destruct (dynamic_List gvr lo w1) as [[l|e] w2];
      cbn [fst snd returned cluster config calls];
      (split; [split; reflexivity|]);
      (split; [first [ split; [intros _; discriminate | intros _; reflexivity]
                     | split; [discriminate | intro He; contradiction] ]|]);
      (split; [apply issued_none; reflexivity | reflexivity]).
  - cbn [fst snd cluster config calls].
    split; [split; reflexivity|].
    split; [split; [intros _; discriminate | intros _; reflexivity]|].
    split; [apply issued_none; reflexivity | reflexivity].
Qed.

End ReadOutcomes.

Section SharedConfiguration.
Import Reads.
Context {W : Type} {C : Cluster W} {R : Reader W}.

(** X16: the delete, the patch and Get, the three methods that hand the
    configuration to [newRestClient], leave the client's configuration
    exactly as they found it, on every path: [newRestClient] receives the
    configuration by value and writes to its own copy. *)
Theorem configuration_kept (kube : KubeClient W) :
  (forall (kind name namespace : string) (opts : DeleteOptions),
     config (snd (DeleteResourceByKindAndNameAndNamespace
                    kind name namespace opts kube))
     = config kube) /\
  (forall (kind name namespace : string) (p : list Byte.byte)
          (strategy : PatchType),
     config (snd (PatchUsingStrategy kind name namespace p strategy kube))
     = config kube) /\
  (forall kind name namespace : string,
     config (snd (Get kind name namespace kube)) = config kube).
Proof.
  split; [|split]; intros.
  - destruct (DeleteResourceByKindAndNameAndNamespace _ _ _ _ _)
      as [out kube'] eqn:Hrun.
    revert Hrun. unfold DeleteResourceByKindAndNameAndNamespace. run_client.
    intro Hrun. repeat next_result; inversion Hrun; reflexivity.
  - destruct (PatchUsingStrategy _ _ _ _ _ _) as [out kube'] eqn:Hrun.
    revert Hrun. unfold PatchUsingStrategy. run_client.
    intro Hrun. repeat next_result; inversion Hrun; reflexivity.
  - destruct (Get _ _ _ _) as [out kube'] eqn:Hrun.
    revert Hrun. unfold Get. run_client.
    intro Hrun. repeat next_result; inversion Hrun; reflexivity.
Qed.

End SharedConfiguration.


(** * The further properties on the in-memory cluster *)

Import InMemoryReads.

(** Re-applying a Deployment: the get, then the replace. *)
Lemma apply_transport_footprint_witness :
  let kube := client (clusterWith [deployment]) in
  let r := ApplyWithNamespaceOverride deployment "" kube in
  fst r = (deployment, snd (fst (fst r)), None) /\
  ((issued kube (snd r) = [] /\ None <> (None : option error) /\
    deployment = deployment) \/
   exists restMapping : RESTMapping,
     let get := CallGet restMapping "prod" "web" in
     (issued kube (snd r) = [get] /\ None <> (None : option error)) \/
     issued kube (snd r) = [get; CallCreate restMapping "prod" true deployment]
     \/
     issued kube (snd r)
     = [get; CallReplace restMapping deployment "prod" "web"]).
Proof.
  cbv zeta. split; [reflexivity|].
  exact (@apply_transport_footprint State inMemoryCluster
           (client (clusterWith [deployment])) _ deployment deployment ""
           _ None eq_refl).
Defined.

(** Applying a manifest of a kind that discovery does not know. *)
Lemma apply_unresolved_type_witness :
  let gadget := manifest "example.io" "v1" "Gadget" "g1" "" in
  let r := ApplyWithNamespaceOverride gadget "team-a" (client emptyCluster) in
  fst r = (gadget, emptyMetadata, Some (noMatch "Gadget")) /\
  issued (client emptyCluster) (snd r) = [] /\
  config (snd r) = config (client emptyCluster) /\
  cluster (snd r) = emptyCluster.
Proof.
  cbv zeta.
  exact (@apply_unresolved_type State inMemoryCluster
           (client emptyCluster)
           (manifest "example.io" "v1" "Gadget" "g1" "") "team-a"
           (noMatch "Gadget") emptyCluster eq_refl).
Defined.

(** Applying a ConfigMap without a namespace through a connection whose
    configuration has no host. *)
Lemma apply_without_rest_client_witness :
  let kube := Strict.hostless emptyCluster in
  let r := @ApplyWithNamespaceOverride State Strict.strictCluster
             configMap "team-a" kube in
  fst r = (configMap, emptyMetadata, Some Strict.noHost) /\
  issued kube (snd r) = [] /\
  cfgGroupVersion (config (snd r))
  = Some {| gvGroup := ""; gvVersion := "v1" |} /\
  cluster (snd r) = emptyCluster.
Proof.
  cbv zeta.
  exact (@apply_without_rest_client State Strict.strictCluster
           (Strict.hostless emptyCluster) configMap "team-a"
           (mapping configmaps) emptyCluster Strict.noHost eq_refl eq_refl).
Defined.

(** Applying a ConfigMap that appears in the cluster between the get and
    the create. *)
Lemma apply_create_failure_witness :
  let w := Strict.raced (clusterWith [configMap]) "cm1" in
  let r := ApplyWithNamespaceOverride configMap "" (client w) in
  IsNotFound (notFound "cm1") = true /\
  fst r
  = (SetNamespace configMap "default", emptyMetadata,
     Some {| ErrReason := StatusReasonAlreadyExists;
             ErrMessage := "cm1 already exists" |}) /\
  issued (client w) (snd r)
  = [CallGet (mapping configmaps) "default" "cm1";
     CallCreate (mapping configmaps) "default" true
                (SetNamespace configMap "default")] /\
  cluster (snd r) = w.
Proof.
  cbv zeta. split; [reflexivity|].
  exact (@apply_create_failure State inMemoryCluster
           (client (Strict.raced (clusterWith [configMap]) "cm1"))
           configMap "" (mapping configmaps)
           (Strict.raced (clusterWith [configMap]) "cm1")
           (restClientFor "" "v1") eq_refl eq_refl
           (notFound "cm1")
           {| ErrReason := StatusReasonAlreadyExists;
              ErrMessage := "cm1 already exists" |}
           (Strict.raced (clusterWith [configMap]) "cm1")
           (Strict.raced (clusterWith [configMap]) "cm1")
           eq_refl eq_refl eq_refl).
Defined.

(** Re-applying a ConfigMap to a cluster whose replace meets a conflict. *)
Lemma apply_replace_failure_witness :
  let w := clusterWith [configMap] in
  let r := @ApplyWithNamespaceOverride State Strict.contendedCluster
             configMap "" (client w) in
  fst r
  = (SetNamespace configMap "default", emptyMetadata, Some Strict.conflict)
  /\
  issued (client w) (snd r)
  = [CallGet (mapping configmaps) "default" "cm1";
     CallReplace (mapping configmaps) (SetNamespace configMap "default")
                 "default" "cm1"] /\
  cluster (snd r) = w.
Proof.
  cbv zeta.
  exact (@apply_replace_failure State Strict.contendedCluster
           (client (clusterWith [configMap])) configMap ""
           (mapping configmaps) (clusterWith [configMap])
           (restClientFor "" "v1") eq_refl eq_refl
           (SetNamespace configMap "default") Strict.conflict
           (clusterWith [configMap]) (clusterWith [configMap])
           eq_refl eq_refl).
Defined.

(** A first Apply of a Deployment: the configuration then names the group
    version apps/v1. *)
Lemma apply_config_effect_witness :
  let kube := client emptyCluster in
  let r := ApplyWithNamespaceOverride deployment "" kube in
  snd (fst r) = None /\
  config (snd r)
  = {| Host := "https://cluster.local"; APIPath := "";
       cfgGroupVersion := Some {| gvGroup := "apps"; gvVersion := "v1" |} |}
  /\
  (forall gv : GroupVersion,
     newRestClient (config (snd r)) gv = newRestClient (config kube) gv).
Proof.
  cbv zeta.
  pose proof (@apply_config_effect State inMemoryCluster
                (client emptyCluster) _ deployment _ "" _ _ eq_refl)
    as [_ [_ [Hwritten Hclient]]].
  split; [reflexivity|].
  split; [exact (Hwritten eq_refl) | exact Hclient].
Defined.

(** Deleting an object of a kind that discovery does not know, and deleting
    a pod. *)
Lemma delete_nil_iff_nothing_sent_witness :
  (let kube := client emptyCluster in
   let r := DeleteResourceByKindAndNameAndNamespace
              "gadgets" "g1" "" noDeleteOptions kube in
   fst (fst r) = None /\
   issued kube (snd r) = [] /\
   snd (fst r) <> None) /\
  (let kube := client (clusterWith [pod]) in
   let r := DeleteResourceByKindAndNameAndNamespace
              "pod" "p1" "ns1" noDeleteOptions kube in
   fst (fst r) <> None /\
   exists (resource : GroupVersionResource) (target : option string),
     issued kube (snd r) = [CallDelete resource target "p1" noDeleteOptions]).
Proof.
  cbv zeta. split.
  - pose proof (@delete_nil_iff_nothing_sent State inMemoryCluster
                  (client emptyCluster) _ "gadgets" "g1" "" noDeleteOptions
                  None _ eq_refl)
      as [Hiff [Herr _]].
    split; [reflexivity|].
    split; [exact (proj1 Hiff eq_refl) | exact (Herr eq_refl)].
  - assert (Hsome :
              Some {| Name := "p1"; Namespace := "ns1"; Resource := "";
                      Group := ""; Version := ""; Kind := "pod" |}
              <> None) by discriminate.
    split; [exact Hsome|].
    exact (proj2 (proj2 (@delete_nil_iff_nothing_sent State inMemoryCluster
                           (client (clusterWith [pod])) _ "pod" "p1" "ns1"
                           noDeleteOptions _ _ eq_refl))
                 Hsome).
Defined.

(** Deleting a ClusterRole with no namespace argument. *)
Lemma delete_cluster_scoped_descriptor_witness :
  let kube := client (clusterWith [clusterRole]) in
  let r := DeleteResourceByKindAndNameAndNamespace
             "clusterrole" "cr1" "" noDeleteOptions kube in
  ToLower "ClusterRole" <> "namespace" /\
  mapScope (mapping clusterroles) = RESTScopeNameRoot /\
  issued kube (snd r)
  = [CallDelete (mapResource (mapping clusterroles)) None "cr1"
                noDeleteOptions] /\
  fst (fst r)
  = Some {| Name := "cr1"; Namespace := "default"; Resource := "";
            Group := ""; Version := ""; Kind := "clusterrole" |}.
Proof.
  cbv zeta.
  assert (Hkind : ToLower "ClusterRole" <> "namespace") by discriminate.
  split; [exact Hkind | split; [reflexivity|]].
  exact (@delete_cluster_scoped_descriptor State inMemoryCluster
           (client (clusterWith [clusterRole])) "clusterrole" "cr1" ""
           noDeleteOptions (mapGroupVersionKind (mapping clusterroles))
           (clusterWith [clusterRole]) (mapping clusterroles)
           (clusterWith [clusterRole])
           (restClientFor "rbac.authorization.k8s.io" "v1")
           eq_refl eq_refl eq_refl Hkind eq_refl).
Defined.

(** Patching a pod that exists. *)
Lemma patch_outcome_shape_witness :
  let kube := client (clusterWith [pod]) in
  let r := PatchUsingStrategy "po" "p1" "ns1" [] MergePatchType kube in
  snd (fst (fst r)) = Some pod /\
  snd (fst r) = None /\
  ((issued kube (snd r) = [] /\ None <> (None : option error)) \/
   exists (resource : GroupVersionResource) (target : option string),
     issued kube (snd r) = [CallPatch resource target "p1" MergePatchType []]).
Proof.
  cbv zeta. split; [reflexivity | split; [reflexivity|]].
  exact (proj2 (@patch_outcome_shape State inMemoryCluster
                  (client (clusterWith [pod])) _ "po" "p1" "ns1" []
                  MergePatchType _ (Some pod) None eq_refl)).
Defined.

(** Patching the ClusterRole cr1, which carries the namespace "foo", with
    the namespace argument "ns1". *)
Lemma patch_success_metadata_witness :
  let kube := client (clusterWith [clusterRole]) in
  dynamic_Patch (mapResource (mapping clusterroles)) None "cr1"
                StrategicMergePatchType [] (clusterWith [clusterRole])
  = (Ok clusterRole, clusterWith [clusterRole]) /\
  fst (Patch "clusterroles" "cr1" "ns1" [] kube)
  = ({| Name := "cr1"; Namespace := "foo"; Resource := "clusterroles";
        Group := "rbac.authorization.k8s.io"; Version := "v1";
        Kind := "ClusterRole" |},
     Some clusterRole, None).
Proof.
  cbv zeta. split; [reflexivity|].
  exact (@patch_success_metadata State inMemoryCluster
           (client (clusterWith [clusterRole])) "clusterroles" "cr1" "ns1" []
           StrategicMergePatchType
           (mapGroupVersionKind (mapping clusterroles))
           (clusterWith [clusterRole]) (mapping clusterroles)
           (clusterWith [clusterRole])
           (restClientFor "rbac.authorization.k8s.io" "v1")
           clusterRole (clusterWith [clusterRole])
           eq_refl eq_refl eq_refl eq_refl).
Defined.

(** Getting a pod from its namespace and from another one, and getting a
    ClusterRole with a namespace argument. *)
Lemma get_dispatch_witness :
  (let kube := client (clusterWith [pod]) in
   mapScope (mapping pods) = RESTScopeNameNamespace /\
   fst (Reads.Get "po" "p1" "ns1" kube) = (Some pod, None) /\
   fst (Reads.Get "po" "p1" "ns2" kube) = (None, Some (notFound "p1"))) /\
  (let kube := client (clusterWith [clusterRole]) in
   mapScope (mapping clusterroles) = RESTScopeNameRoot /\
   fst (Reads.Get "clusterrole" "cr1" "ns1" kube) = (Some clusterRole, None)
   /\
   Reads.Get "clusterrole" "cr1" "kube-system" kube
   = Reads.Get "clusterrole" "cr1" "ns1" kube).
Proof.
  cbv zeta. split; (split; [reflexivity|]).
  - split.
    + exact (proj1 (@get_dispatch State inMemoryCluster
                      inMemoryReader
                      (client (clusterWith [pod])) "po" "p1" "ns1"
                      (mapGroupVersionKind (mapping pods))
                      (clusterWith [pod]) (mapping pods) (clusterWith [pod])
                      (restClientFor "" "v1") eq_refl eq_refl eq_refl)
                   eq_refl).
    + exact (proj1 (@get_dispatch State inMemoryCluster
                      inMemoryReader
                      (client (clusterWith [pod])) "po" "p1" "ns2"
                      (mapGroupVersionKind (mapping pods))
                      (clusterWith [pod]) (mapping pods) (clusterWith [pod])
                      (restClientFor "" "v1") eq_refl eq_refl eq_refl)
                   eq_refl).
  - pose proof (proj1 (proj2
                  (@get_dispatch State inMemoryCluster
                     inMemoryReader
                     (client (clusterWith [clusterRole]))
                     "clusterrole" "cr1" "ns1"
                     (mapGroupVersionKind (mapping clusterroles))
                     (clusterWith [clusterRole]) (mapping clusterroles)
                     (clusterWith [clusterRole])
                     (restClientFor "rbac.authorization.k8s.io" "v1")
                     eq_refl eq_refl eq_refl))
                  eq_refl)
      as [Hread Hignored].
    split; [exact Hread | exact (Hignored "kube-system")].
Defined.

(** A ConfigMap stored in the namespace "default", addressed with an empty
    namespace: the delete reaches it, Get does not find it. *)
Lemma get_does_not_default_namespace_witness :
  let kube := client (clusterWith [configMap]) in
  mapScope (mapping configmaps) = RESTScopeNameNamespace /\
  ToLower "ConfigMap" <> "namespace" /\
  issued kube
    (snd (DeleteResourceByKindAndNameAndNamespace
            "cm" "cm1" "" noDeleteOptions kube))
  = [CallDelete (mapResource (mapping configmaps)) (Some "default") "cm1"
                noDeleteOptions] /\
  Reads.Get "cm" "cm1" "" kube
  = (None, Some (notFound "cm1"), kube).
Proof.
  cbv zeta.
  assert (Hkind : ToLower "ConfigMap" <> "namespace") by discriminate.
  split; [reflexivity | split; [exact Hkind|]].
  exact (@get_does_not_default_namespace State inMemoryCluster
           inMemoryReader
           (client (clusterWith [configMap])) "cm" "cm1" noDeleteOptions
           (mapGroupVersionKind (mapping configmaps))
           (clusterWith [configMap]) (mapping configmaps)
           (clusterWith [configMap]) (restClientFor "" "v1")
           eq_refl eq_refl eq_refl eq_refl Hkind).
Defined.

(** Listing the deployments of a cluster that holds a Deployment and a
    ConfigMap, and listing a resource that discovery does not know. *)
Lemma list_resource_outcome_witness :
  (let kube := client (clusterWith [deployment; configMap]) in
   let r := Reads.ListResource "deploy" everything kube in
   fst r = (Some {| Reads.Items := [deployment];
                    Reads.RemainingContinue := "" |}, None) /\
   cluster (snd r) = clusterWith [deployment; configMap]) /\
  (let kube := client emptyCluster in
   let r := Reads.ListResource "gadgets" everything kube in
   fst r = (None, Some (noMatch "gadgets")) /\
   cluster (snd r) = emptyCluster).
Proof.
  cbv zeta. split.
  - exact (proj1 (@list_resource_outcome State inMemoryReader
                    (client (clusterWith [deployment; configMap])) "deploy"
                    everything
                    (Ok (mapResource (mapping deployments)))
                    (clusterWith [deployment; configMap]) eq_refl)).
  - exact (proj1 (@list_resource_outcome State inMemoryReader
                    (client emptyCluster) "gadgets" everything
                    (Err (noMatch "gadgets")) emptyCluster eq_refl)).
Defined.

(** Getting an object of a kind that discovery does not know, and getting a
    pod through a connection whose configuration has no host. *)
Lemma get_unresolved_witness :
  Reads.Get "gadgets" "g1" "ns1" (client emptyCluster)
  = (None, Some (noMatch "gadgets"), client emptyCluster) /\
  @Reads.Get State Strict.strictCluster inMemoryReader "po" "p1" "ns1"
             (Strict.hostless (clusterWith [pod]))
  = (None, Some Strict.noHost, Strict.hostless (clusterWith [pod])).
Proof.
  split.
  - exact (proj1 (@get_unresolved State inMemoryCluster inMemoryReader
                    (client emptyCluster) "gadgets" "g1" "ns1")
                 (noMatch "gadgets") emptyCluster eq_refl).
  - exact (proj2 (proj2 (@get_unresolved State Strict.strictCluster
                           inMemoryReader
                           (Strict.hostless (clusterWith [pod]))
                           "po" "p1" "ns1"))
                 (mapGroupVersionKind (mapping pods)) (clusterWith [pod])
                 (mapping pods) (clusterWith [pod]) Strict.noHost
                 eq_refl eq_refl eq_refl).
Defined.
